(** * Gocl kernel dispatch: a shallow embedding of [gocl/gocl-kernel.c]

    The development follows the C file: machine integers are [Z] with their
    wrap-around written out, GObject instances live in a store indexed by
    address, and every function that touches the store, the OpenCL driver or
    the GLib log is a computation in a small state monad. *)

From Stdlib Require Import ZArith Lia String.
From stdpp Require Import base option list gmap strings.

Local Open Scope Z_scope.

(** ** Machine integers and native handles *)

Abbreviation ptr := positive.

Definition cl_int := Z.
Definition cl_handle := Z.

Definition CL_SUCCESS : cl_int := 0.

Definition G_MAXSIZE : Z := 2 ^ 64 - 1.

Definition to_gsize (z : Z) : Z := z mod 2 ^ 64.
Definition to_guint (z : Z) : Z := z mod 2 ^ 32.

Definition sizeof_gsize : nat := 8.
Definition sizeof_cl_uint : Z := 4.
Definition sizeof_cl_float : Z := 4.
Definition sizeof_cl_mem : Z := 8.

(** ** Raw memory under a [WorkSize]

    [typedef gsize WorkSize[3]]: three [gsize] slots, kept as a list that is
    read and written by index.  [memset] works on the bytes underneath, so
    the slots are laid out (little-endian, [sizeof_gsize] bytes each) when
    it is applied. *)

Fixpoint gsize_to_bytes_aux (n : nat) (v : Z) : list Z :=
  match n with
  | O => []
  | S n' => Z.land v 255 :: gsize_to_bytes_aux n' (Z.shiftr v 8)
  end.

Definition gsize_to_bytes (v : Z) : list Z := gsize_to_bytes_aux sizeof_gsize v.

Fixpoint gsize_of_bytes (bs : list Z) : Z :=
  match bs with
  | [] => 0
  | b :: rest => Z.lor b (Z.shiftl (gsize_of_bytes rest) 8)
  end.

Definition WorkSize_to_bytes (ws : list Z) : list Z :=
  concat (map gsize_to_bytes ws).

Fixpoint WorkSize_of_bytes (slots : nat) (bs : list Z) : list Z :=
  match slots with
  | O => []
  | S slots' =>
      gsize_of_bytes (take sizeof_gsize bs)
        :: WorkSize_of_bytes slots' (drop sizeof_gsize bs)
  end.

(** [memset (s, c, n)]: the first [n] bytes of [s] become [(unsigned char) c]. *)
Definition memset (s : list Z) (c : Z) (n : nat) : list Z :=
  replicate (Nat.min n (length s)) (c mod 256) ++ drop n s.

Definition memset_WorkSize (ws : list Z) (c : Z) (n : nat) : list Z :=
  WorkSize_of_bytes (length ws) (memset (WorkSize_to_bytes ws) c n).

(** ** Objects *)

Record GError := { code : Z; message : string }.

(** [struct _GoclKernelPrivate] *)
Record GoclKernelPrivate := {
  kernel : cl_handle;
  name : string;
  program : option ptr;
  global_work_size : list Z;
  local_work_size : list Z;
  work_dim : Z
}.

Definition set_kernel (v : cl_handle) (p : GoclKernelPrivate) :=
  {| kernel := v; name := name p; program := program p;
     global_work_size := global_work_size p;
     local_work_size := local_work_size p; work_dim := work_dim p |}.

Definition set_name (v : string) (p : GoclKernelPrivate) :=
  {| kernel := kernel p; name := v; program := program p;
     global_work_size := global_work_size p;
     local_work_size := local_work_size p; work_dim := work_dim p |}.

Definition set_program (v : option ptr) (p : GoclKernelPrivate) :=
  {| kernel := kernel p; name := name p; program := v;
     global_work_size := global_work_size p;
     local_work_size := local_work_size p; work_dim := work_dim p |}.

Definition set_global (v : list Z) (p : GoclKernelPrivate) :=
  {| kernel := kernel p; name := name p; program := program p;
     global_work_size := v;
     local_work_size := local_work_size p; work_dim := work_dim p |}.

Definition set_local (v : list Z) (p : GoclKernelPrivate) :=
  {| kernel := kernel p; name := name p; program := program p;
     global_work_size := global_work_size p;
     local_work_size := v; work_dim := work_dim p |}.

Definition set_work_dim (v : Z) (p : GoclKernelPrivate) :=
  {| kernel := kernel p; name := name p; program := program p;
     global_work_size := global_work_size p;
     local_work_size := local_work_size p; work_dim := v |}.

(** The memory GObject hands to an instance initialiser is zero-filled. *)
Definition GoclKernelPrivate_zeroed : GoclKernelPrivate :=
  {| kernel := 0; name := EmptyString; program := None;
     global_work_size := [0; 0; 0];
     local_work_size := [0; 0; 0]; work_dim := 0 |}.

(** Modelled from the spec: [gocl-event.c] is not among the sources.  A
    CompletionToken has an outcome state (Pending, Resolved-Success or
    Resolved-Error with its error detail), a reference to its queue, the
    native completion handle registered with it (0 while there is none), an
    optional resolver and a snapshot of the dependency list it was created
    with (spec, section 3). *)
Inductive Outcome :=
  | Pending
  | ResolvedSuccess
  | ResolvedError (e : GError).

(** Modelled from the spec: the resolver entry points a token can hold.  The
    sources never attach one themselves; the only resolver a token carries is
    the one it is created with, and the spec's failure semantics (section
    4.1: the token is synthesized into Resolved-Error by invoking its
    resolver inline) make that one the entry point that performs the
    resolution. *)
Inductive GoclEventResolverFunc :=
  | gocl_event_resolve.

(** Modelled from the spec: the attributes of a CompletionToken (section 3);
    [gocl-event.c] is not among the sources. *)
Record GoclEventPrivate := {
  ev_state : Outcome;
  ev_queue : option ptr;
  ev_event : cl_handle;
  ev_resolver_func : option GoclEventResolverFunc;
  ev_event_wait_list : list ptr
}.

Definition set_ev_state (v : Outcome) (e : GoclEventPrivate) :=
  {| ev_state := v; ev_queue := ev_queue e; ev_event := ev_event e;
     ev_resolver_func := ev_resolver_func e;
     ev_event_wait_list := ev_event_wait_list e |}.

Definition set_ev_resolver_func (v : option GoclEventResolverFunc)
    (e : GoclEventPrivate) :=
  {| ev_state := ev_state e; ev_queue := ev_queue e; ev_event := ev_event e;
     ev_resolver_func := v;
     ev_event_wait_list := ev_event_wait_list e |}.

Definition set_ev_event_wait_list (v : list ptr) (e : GoclEventPrivate) :=
  {| ev_state := ev_state e; ev_queue := ev_queue e; ev_event := ev_event e;
     ev_resolver_func := ev_resolver_func e;
     ev_event_wait_list := v |}.

(** The instances the kernel code handles, by class. *)
Inductive GObject :=
  | GoclKernel (priv : GoclKernelPrivate)
  | GoclDevice (default_queue : option ptr)
  | GoclQueue (queue : cl_handle)
  | GoclEvent (priv : GoclEventPrivate)
  | GoclProgram (prog : cl_handle)
  | GoclBuffer (buf : cl_handle).

(** ** The OpenCL driver

    Every call into the driver is recorded with the arguments it was given.
    A [NULL] array argument is [None]. *)
Inductive ArgValue :=
  | ArgHost (address : Z)
  | ArgMem (mem : cl_handle).

Inductive NativeCall :=
  | clCreateKernel (prog : cl_handle) (kernel_name : string)
  | clSetKernelArg (k : cl_handle) (arg_index : Z) (arg_size : Z)
      (arg_value : ArgValue)
  | clEnqueueNDRangeKernel (command_queue : cl_handle) (k : cl_handle)
      (dim : Z) (global_work_offset : option (list Z))
      (global_size : option (list Z)) (local_size : option (list Z))
      (num_events_in_wait_list : Z)
      (wait_list : option (list cl_handle))
  | clWaitForEvents (num_events : Z) (event_list : list cl_handle)
  | clReleaseEvent (event : cl_handle)
  | clReleaseKernel (k : cl_handle).

(** Property values and the property ids of the kernel class. *)
Inductive GValue :=
  | GValueObject (o : option ptr)
  | GValueString (s : string).

Definition g_value_dup_object (value : GValue) : option ptr :=
  match value with GValueObject o => o | GValueString _ => None end.

Definition g_value_dup_string (value : GValue) : string :=
  match value with GValueString s => s | GValueObject _ => EmptyString end.

Definition PROP_0 : Z := 0.
Definition PROP_PROGRAM : Z := 1.
Definition PROP_NAME : Z := 2.

(** ** The state of the process

    Everything the code does to the outside is appended to one trace, in
    program order: calls into the driver, failed [g_return_if_fail] checks,
    invocations of a resolver, deferred unrefs. *)

Inductive Effect :=
  | Native (c : NativeCall)
  | Critical (check : string)
  | Warning (text : string)
  | ResolverCall (f : GoclEventResolverFunc) (self : option ptr)
      (error : option GError)
  | NullCall
  | IdleUnref (p : ptr)
  | Unref (object : ptr).

Record World := {
  objects : gmap positive GObject;
  trace : list Effect;
  gocl_error : option GError
}.

Definition set_objects (v : gmap positive GObject) (w : World) :=
  {| objects := v; trace := trace w; gocl_error := gocl_error w |}.

Definition set_trace (v : list Effect) (w : World) :=
  {| objects := objects w; trace := v; gocl_error := gocl_error w |}.

Definition set_gocl_error (v : option GError) (w : World) :=
  {| objects := objects w; trace := trace w; gocl_error := v |}.

(** ** The monad *)

Definition M (A : Type) : Type := World -> A * World.

#[global] Instance M_ret : MRet M := fun A a w => (a, w).

#[global] Instance M_bind : MBind M :=
  fun A B k c w => let (a, w') := c w in k a w'.

Definition emit (e : Effect) : M unit :=
  fun w => (tt, set_trace (trace w ++ [e]) w).

Definition g_critical (check : string) : M unit := emit (Critical check).

Definition lookup_object (p : option ptr) : M (option GObject) :=
  fun w => (match p with Some a => objects w !! a | None => None end, w).

Definition store_object (p : ptr) (o : GObject) : M unit :=
  fun w => (tt, set_objects (<[p := o]> (objects w)) w).

Definition modify_objects_delete (p : ptr) : M unit :=
  fun w => (tt, set_objects (delete p (objects w)) w).

(** [g_object_new]: a fresh address for the new instance. *)
Definition g_object_alloc (o : GObject) : M ptr :=
  fun w => let p := fresh (dom (objects w)) in
           (p, set_objects (<[p := o]> (objects w)) w).

(** ** Class checks and accessors of the collaborators *)

Definition GOCL_IS_KERNEL (self : option ptr) : M (option GoclKernelPrivate) :=
  o ← lookup_object self;
  mret (match o with Some (GoclKernel priv) => Some priv | _ => None end).

Definition GOCL_IS_DEVICE (device : option ptr) : M bool :=
  o ← lookup_object device;
  mret (match o with Some (GoclDevice _) => true | _ => false end).

Definition GOCL_IS_EVENT (self : option ptr) : M (option GoclEventPrivate) :=
  o ← lookup_object self;
  mret (match o with Some (GoclEvent priv) => Some priv | _ => None end).

(** [g_object_unref]: a handle that is no instance fails the [G_IS_OBJECT]
    check; on an instance one reference is given up, which the trace
    records.  The store does not count references (taking one, as
    [g_value_dup_object] does, leaves it as it is), so it cannot show the
    object going away when the reference given up was the last. *)
Definition g_object_unref (object : option ptr) : M unit :=
  o ← lookup_object object;
  match object, o with
  | Some p, Some _ => emit (Unref p)
  | _, _ => g_critical "G_IS_OBJECT (object)"
  end.

(** [self->priv->field = v] on a kernel instance. *)
Definition update_kernel (self : option ptr)
    (f : GoclKernelPrivate -> GoclKernelPrivate) : M unit :=
  o ← lookup_object self;
  match self, o with
  | Some p, Some (GoclKernel priv) => store_object p (GoclKernel (f priv))
  | _, _ => mret tt
  end.

Definition update_event (self : option ptr)
    (f : GoclEventPrivate -> GoclEventPrivate) : M unit :=
  o ← lookup_object self;
  match self, o with
  | Some p, Some (GoclEvent priv) => store_object p (GoclEvent (f priv))
  | _, _ => mret tt
  end.

(** Modelled from the spec: [gocl-device.c] is not among the sources.  A
    device supplies its default queue, and reports an absent queue as such
    (spec, section 6). *)
Definition gocl_device_get_default_queue (device : option ptr)
    : M (option ptr) :=
  o ← lookup_object device;
  mret (match o with Some (GoclDevice q) => q | _ => None end).

(** Modelled from the spec: [gocl-queue.c] is not among the sources; the
    accessor hands out the native queue handle of the instance. *)
Definition gocl_queue_get_queue (queue : option ptr) : M cl_handle :=
  o ← lookup_object queue;
  mret (match o with Some (GoclQueue q) => q | _ => 0 end).

(** Modelled from the spec: [gocl-program.c] is not among the sources; a
    program supplies the handle of its compiled entry points (section 6). *)
Definition gocl_program_get_program (prog : option ptr) : M cl_handle :=
  o ← lookup_object prog;
  mret (match o with Some (GoclProgram h) => h | _ => 0 end).

(** Modelled from the spec: [gocl-buffer.c] is not among the sources; a
    buffer supplies an opaque native memory handle (section 6). *)
Definition gocl_buffer_get_buffer (buffer : option ptr) : M cl_handle :=
  o ← lookup_object buffer;
  mret (match o with Some (GoclBuffer h) => h | _ => 0 end).

(** [g_list_length] returns a [guint]. *)
Definition g_list_length {A} (l : list A) : Z :=
  to_guint (Z.of_nat (length l)).

(** ** The event class, as the kernel code uses it *)

(** Modelled from the spec: [create_pending] and [attach_native_signal] of
    section 4.1, reached through [g_object_new (GOCL_TYPE_EVENT, "queue", q,
    "event", e, NULL)]: a token in Pending state bound to the queue, holding
    the native handle when one is given, and carrying the resolver it will be
    resolved through. *)
Definition g_object_new_GoclEvent (queue : option ptr) (event : cl_handle)
    : M (option ptr) :=
  p ← g_object_alloc
         (GoclEvent {| ev_state := Pending; ev_queue := queue;
                       ev_event := event;
                       ev_resolver_func := Some gocl_event_resolve;
                       ev_event_wait_list := [] |});
  mret (Some p).

(** Modelled from the spec: the token keeps a snapshot of the dependency list
    it was created with (section 3). *)
Definition gocl_event_set_event_wait_list (self : option ptr)
    (event_wait_list : list ptr) : M unit :=
  ev ← GOCL_IS_EVENT self;
  match ev with
  | None => g_critical "GOCL_IS_EVENT (self)"
  | Some _ => update_event self (set_ev_event_wait_list event_wait_list)
  end.

(** Modelled from the spec: [steal_resolver] of section 4.1 detaches and
    returns the resolver, clearing it from the token. *)
Definition gocl_event_steal_resolver_func (self : option ptr)
    : M (option GoclEventResolverFunc) :=
  ev ← GOCL_IS_EVENT self;
  match ev with
  | None => g_critical "GOCL_IS_EVENT (self)";; mret None
  | Some priv =>
      update_event self (set_ev_resolver_func None);;
      mret (ev_resolver_func priv)
  end.

(** Modelled from the spec: what the resolution entry point does to its token
    (section 4.1, [resolve]): resolving a token that is already resolved is
    reported and changes nothing; otherwise the state flips to the outcome
    the error argument stands for. *)
Definition gocl_event_resolve_body (self : option ptr)
    (error : option GError) : M unit :=
  ev ← GOCL_IS_EVENT self;
  match ev with
  | None => g_critical "GOCL_IS_EVENT (self)"
  | Some priv =>
      match ev_state priv with
      | Pending =>
          update_event self
            (set_ev_state (match error with
                           | Some e => ResolvedError e
                           | None => ResolvedSuccess
                           end))
      | _ => g_critical "! self->priv->already_resolved"
      end
  end.

(** A call through a [GoclEventResolverFunc] pointer.  The call is recorded
    before the callee runs; a [NULL] pointer has no callee. *)
Definition call_resolver_func (resolver_func : option GoclEventResolverFunc)
    (self : option ptr) (error : option GError) : M unit :=
  match resolver_func with
  | None => emit NullCall
  | Some gocl_event_resolve =>
      emit (ResolverCall gocl_event_resolve self error);;
      gocl_event_resolve_body self error
  end.

(** Modelled from the spec: the deferred release of a token; an invalid
    handle is a usage error (section 7). *)
Definition gocl_event_idle_unref (self : option ptr) : M unit :=
  ev ← GOCL_IS_EVENT self;
  match self, ev with
  | Some p, Some _ => emit (IdleUnref p)
  | _, _ => g_critical "GOCL_IS_EVENT (self)"
  end.

(** Modelled from the spec: the projection of one token to its native
    completion handle (section 4.2); a token that is still Pending and has
    no native handle is a usage error, and so is a handle that is no token. *)
Definition gocl_event_get_event (node : ptr) : M cl_handle :=
  ev ← GOCL_IS_EVENT (Some node);
  match ev with
  | None => g_critical "GOCL_IS_EVENT (self)";; mret 0
  | Some priv =>
      match ev_state priv with
      | Pending =>
          if decide (ev_event priv = 0)
          then (g_critical "event has no native handle";; mret 0)
          else mret (ev_event priv)
      | _ => mret (ev_event priv)
      end
  end.

(** Modelled from the spec: the tokens of a dependency list are projected in
    list order (section 4.2). *)
Fixpoint gocl_event_list_project (event_list : list ptr)
    : M (list cl_handle) :=
  match event_list with
  | [] => mret []
  | node :: rest =>
      h ← gocl_event_get_event node;
      hs ← gocl_event_list_project rest;
      mret (h :: hs)
  end.

(** Modelled from the spec: [to_wait_handles] of section 4.2, which is
    [gocl_event_list_to_array] of the absent [gocl-event.c].  A null or empty
    list maps to no array and count 0; any other list to the flat array of
    its native handles and their number. *)
Definition gocl_event_list_to_array (event_list : list ptr)
    : M (option (list cl_handle) * Z) :=
  match event_list with
  | [] => mret (None, 0)
  | _ :: _ =>
      event_arr ← gocl_event_list_project event_list;
      mret (Some event_arr, g_list_length event_list)
  end.

(** ** The driver and the error table *)

Section Kernel.

(** The driver answers a call with a status code and, for the calls that
    produce one, a handle; its answer may depend on everything that happened
    before. *)
Variable driver : list Effect -> NativeCall -> cl_int * cl_handle.

(** The text [gocl-error.c] attaches to a native error code. *)
Variable gocl_error_get_message : cl_int -> string.

Definition cl_call (c : NativeCall) : M (cl_int * cl_handle) :=
  fun w => (driver (trace w) c, set_trace (trace w ++ [Native c]) w).

(** Modelled from the spec: [gocl-error.c] is not among the sources.  A
    failure code of the native layer becomes a structured error with the
    native code preserved and a readable message (sections 6 and 7); the
    result says whether there was an error. *)
Definition gocl_error_check_opencl (err_code : cl_int)
    (error : option GError) : bool * option GError :=
  if decide (err_code = CL_SUCCESS) then (false, error)
  else (true, Some {| code := err_code;
                      message := gocl_error_get_message err_code |}).

(** Modelled from the spec: the variant for calls without an error argument
    leaves the structured error out of band. *)
Definition gocl_error_check_opencl_internal (err_code : cl_int) : M bool :=
  fun w =>
    let (failed, error) := gocl_error_check_opencl err_code (gocl_error w) in
    (failed, set_gocl_error error w).

(** ** [gocl-kernel.c] *)

Definition gocl_kernel_initable_init (initable : option ptr)
    : M (bool * option GError) :=
  self ← GOCL_IS_KERNEL initable;
  match self with
  | None => g_critical "GOCL_KERNEL (initable)";; mret (false, None)
  | Some priv =>
      prog ← gocl_program_get_program (program priv);
      r ← cl_call (clCreateKernel prog (name priv));
      let (err_code, k) := r : cl_int * cl_handle in
      update_kernel initable (set_kernel k);;
      let (failed, error) := gocl_error_check_opencl err_code None in
      if failed : bool then mret (false, error) else mret (true, error)
  end.

Definition gocl_kernel_init (self : option ptr) : M unit :=
  update_kernel self (set_work_dim 1);;
  update_kernel self
    (fun priv => set_global (memset_WorkSize (global_work_size priv) 0 3) priv);;
  update_kernel self
    (fun priv => set_local (memset_WorkSize (local_work_size priv) 0 3) priv).

(** The instance frees its name (a string the instance owns: freeing it
    shows nowhere in this store), gives up its reference to the program,
    releases the native kernel, and is itself freed by the parent class. *)
Definition gocl_kernel_finalize (obj : ptr) : M unit :=
  self ← GOCL_IS_KERNEL (Some obj);
  match self with
  | None => g_critical "GOCL_KERNEL (obj)"
  | Some priv =>
      g_object_unref (program priv);;
      cl_call (clReleaseKernel (kernel priv));;
      modify_objects_delete obj
  end.

Definition set_property (obj : ptr) (prop_id : Z) (value : GValue) : M unit :=
  if decide (prop_id = PROP_PROGRAM) then
    update_kernel (Some obj) (set_program (g_value_dup_object value))
  else if decide (prop_id = PROP_NAME) then
    update_kernel (Some obj) (set_name (g_value_dup_string value))
  else emit (Warning "invalid property id").

(** Construction of a kernel instance, as GObject performs it for
    [g_initable_new (GOCL_TYPE_KERNEL, ..., "program", p, "name", n, NULL)]:
    zero-filled instance memory, the instance initialiser, the construct
    properties ([set_property]), then the [GInitable] initialiser; when that
    one fails the instance is dropped and [NULL] is returned. *)
Definition g_initable_new_GoclKernel (prog : option ptr) (kernel_name : string)
    : M (option ptr * option GError) :=
  p ← g_object_alloc (GoclKernel GoclKernelPrivate_zeroed);
  gocl_kernel_init (Some p);;
  set_property p PROP_PROGRAM (GValueObject prog);;
  set_property p PROP_NAME (GValueString kernel_name);;
  r ← gocl_kernel_initable_init (Some p);
  let (ok, error) := r : bool * option GError in
  if ok then mret (Some p, error)
  else (gocl_kernel_finalize p;; mret (None, error)).

Definition gocl_kernel_get_kernel (self : option ptr) : M cl_handle :=
  k ← GOCL_IS_KERNEL self;
  match k with
  | None => g_critical "GOCL_IS_KERNEL (self)";; mret 0
  | Some priv => mret (kernel priv)
  end.

(** [index] is a [guint], [size] a [gsize], [buffer] the address of the
    caller's memory. *)
Definition gocl_kernel_set_argument (self : option ptr) (index : Z)
    (size : Z) (buffer : Z) : M bool :=
  k ← GOCL_IS_KERNEL self;
  match k with
  | None => g_critical "GOCL_IS_KERNEL (self)";; mret false
  | Some priv =>
      r ← cl_call (clSetKernelArg (kernel priv) index size (ArgHost buffer));
      failed ← gocl_error_check_opencl_internal (fst r);
      mret (negb failed)
  end.

(** [sizeof (cl_uint) * num_elements] is computed in [gsize]. *)
Definition gocl_kernel_set_argument_int32 (self : option ptr) (index : Z)
    (num_elements : Z) (buffer : Z) : M bool :=
  gocl_kernel_set_argument self index
    (to_gsize (sizeof_cl_uint * num_elements)) buffer.

Definition gocl_kernel_set_argument_float (self : option ptr) (index : Z)
    (num_elements : Z) (buffer : Z) : M bool :=
  gocl_kernel_set_argument self index
    (to_gsize (sizeof_cl_float * num_elements)) buffer.

Definition gocl_kernel_set_argument_buffer (self : option ptr) (index : Z)
    (buffer : option ptr) : M bool :=
  k ← GOCL_IS_KERNEL self;
  match k with
  | None => g_critical "GOCL_IS_KERNEL (self)";; mret false
  | Some priv =>
      buf ← gocl_buffer_get_buffer buffer;
      r ← cl_call (clSetKernelArg (kernel priv) index sizeof_cl_mem
                     (ArgMem buf));
      failed ← gocl_error_check_opencl_internal (fst r);
      mret (negb failed)
  end.

(** The size argument of the submission: [NULL] when slot 0 of the vector is
    zero, the address of the three-slot vector otherwise. *)
Definition work_size_arg (ws : list Z) : option (list Z) :=
  if decide (ws !!! 0%nat = 0) then None else Some ws.

Definition gocl_kernel_run_in_device_sync (self : option ptr)
    (device : option ptr) (event_wait_list : list ptr) : M bool :=
  k ← GOCL_IS_KERNEL self;
  match k with
  | None => g_critical "GOCL_IS_KERNEL (self)";; mret false
  | Some priv =>
      d ← GOCL_IS_DEVICE device;
      if negb d then (g_critical "GOCL_IS_DEVICE (device)";; mret false)
      else
        queue ← gocl_device_get_default_queue device;
        match queue with
        | None => mret false
        | Some _ =>
            a ← gocl_event_list_to_array event_wait_list;
            let _event_wait_list := fst a in
            _queue ← gocl_queue_get_queue queue;
            r ← cl_call
                  (clEnqueueNDRangeKernel _queue (kernel priv) (work_dim priv)
                     None
                     (work_size_arg (global_work_size priv))
                     (work_size_arg (local_work_size priv))
                     (g_list_length event_wait_list)
                     _event_wait_list);
            let (err_code, event) := r : cl_int * cl_handle in
            failed ← gocl_error_check_opencl_internal err_code;
            if failed : bool then mret false
            else
              cl_call (clWaitForEvents 1 [event]);;
              cl_call (clReleaseEvent event);;
              mret true
        end
  end.

Definition gocl_kernel_run_in_device (self : option ptr)
    (device : option ptr) (event_wait_list : list ptr) : M (option ptr) :=
  k ← GOCL_IS_KERNEL self;
  match k with
  | None => g_critical "GOCL_IS_KERNEL (self)";; mret None
  | Some priv =>
      d ← GOCL_IS_DEVICE device;
      if negb d then (g_critical "GOCL_IS_DEVICE (device)";; mret None)
      else
        a ← gocl_event_list_to_array event_wait_list;
        let (_event_wait_list, event_wait_list_len) :=
          a : option (list cl_handle) * Z in
        queue ← gocl_device_get_default_queue device;
        (* everything up to the label [out] *)
        st ← match queue with
             | None => mret (None, None)
             | Some _ =>
                 _queue ← gocl_queue_get_queue queue;
                 r ← cl_call
                       (clEnqueueNDRangeKernel _queue (kernel priv)
                          (work_dim priv) None
                          (work_size_arg (global_work_size priv))
                          (work_size_arg (local_work_size priv))
                          event_wait_list_len
                          _event_wait_list);
                 let (err_code, event) := r : cl_int * cl_handle in
                 let (failed, error) :=
                   gocl_error_check_opencl err_code None in
                 if negb failed then
                   _event ← g_object_new_GoclEvent queue event;
                   gocl_event_set_event_wait_list _event event_wait_list;;
                   gocl_event_steal_resolver_func _event;;
                   mret (_event, error)
                 else mret (None, error)
             end;
        let (_event0, error) := st : option ptr * option GError in
        (* out: *)
        _event ← match error with
                 | Some _ =>
                     _event ← g_object_new_GoclEvent queue 0;
                     resolver_func ← gocl_event_steal_resolver_func _event;
                     call_resolver_func resolver_func _event error;;
                     mret _event
                 | None => mret _event0
                 end;
        gocl_event_idle_unref _event;;
        mret _event
  end.

(** [work_dim] is a [guint8]: the value arrives already converted, in
    [0, 255]. *)
Definition gocl_kernel_set_work_dimension (self : option ptr) (work_dim : Z)
    : M unit :=
  k ← GOCL_IS_KERNEL self;
  match k with
  | None => g_critical "GOCL_IS_KERNEL (self)"
  | Some _ =>
      if negb ((0 <? work_dim) && (work_dim <=? 3))
      then g_critical "work_dim > 0 && work_dim <= 3"
      else update_kernel self (set_work_dim work_dim)
  end.

Definition gocl_kernel_set_global_work_size (self : option ptr)
    (size1 size2 size3 : Z) : M unit :=
  k ← GOCL_IS_KERNEL self;
  match k with
  | None => g_critical "GOCL_IS_KERNEL (self)"
  | Some _ =>
      update_kernel self
        (fun priv => set_global (<[0%nat := size1]> (global_work_size priv)) priv);;
      update_kernel self
        (fun priv => set_global (<[1%nat := size2]> (global_work_size priv)) priv);;
      update_kernel self
        (fun priv => set_global (<[2%nat := size3]> (global_work_size priv)) priv)
  end.

Definition gocl_kernel_set_local_work_size (self : option ptr)
    (size1 size2 size3 : Z) : M unit :=
  k ← GOCL_IS_KERNEL self;
  match k with
  | None => g_critical "GOCL_IS_KERNEL (self)"
  | Some _ =>
      update_kernel self
        (fun priv => set_local (<[0%nat := size1]> (local_work_size priv)) priv);;
      update_kernel self
        (fun priv => set_local (<[1%nat := size2]> (local_work_size priv)) priv);;
      update_kernel self
        (fun priv => set_local (<[2%nat := size3]> (local_work_size priv)) priv)
  end.

End Kernel.

(** * Properties *)

(** A valid Dispatcher: the address holds a kernel instance, whose two
    [WorkSize] vectors have their three slots. *)
Definition valid_kernel (w : World) (self : ptr) (priv : GoclKernelPrivate)
    : Prop :=
  objects w !! self = Some (GoclKernel priv)
  /\ length (global_work_size priv) = 3%nat
  /\ length (local_work_size priv) = 3%nat.

(** A valid device, with the default queue it supplies (if any). *)
Definition valid_device (w : World) (device : ptr) (queue : option ptr)
    : Prop :=
  objects w !! device = Some (GoclDevice queue).

(** The submission a run makes for a kernel, on a native queue, gated on a
    marshalled wait list. *)
Definition submission (priv : GoclKernelPrivate) (_queue : cl_handle)
    (count : Z) (_event_wait_list : option (list cl_handle)) : NativeCall :=
  clEnqueueNDRangeKernel _queue (kernel priv) (work_dim priv) None
    (work_size_arg (global_work_size priv))
    (work_size_arg (local_work_size priv))
    count _event_wait_list.

(** The native queue behind a queue instance. *)
Definition native_queue (w : World) (queue : ptr) : cl_handle :=
  match objects w !! queue with Some (GoclQueue q) => q | _ => 0 end.

(** The token an asynchronous run hands out when the submission went through,
    and the one it synthesizes when the submission failed. *)
Definition submitted_token (queue : ptr) (event : cl_handle)
    (event_wait_list : list ptr) : GoclEventPrivate :=
  {| ev_state := Pending; ev_queue := Some queue; ev_event := event;
     ev_resolver_func := None; ev_event_wait_list := event_wait_list |}.

Definition failed_token (queue : ptr) (e : GError) : GoclEventPrivate :=
  {| ev_state := ResolvedError e; ev_queue := Some queue; ev_event := 0;
     ev_resolver_func := None; ev_event_wait_list := [] |}.

(** What a trace says about resolvers and submissions: the resolver
    invocations, with the token and error each was given, and the submissions
    made to the driver, oldest first. *)
Definition resolver_calls (t : list Effect)
    : list (option ptr * option GError) :=
  omap (fun e => match e with
                 | ResolverCall _ self error => Some (self, error)
                 | _ => None
                 end) t.

Definition enqueue_calls (t : list Effect) : list NativeCall :=
  omap (fun e => match e with
                 | Native (clEnqueueNDRangeKernel q k d o g l n wl) =>
                     Some (clEnqueueNDRangeKernel q k d o g l n wl)
                 | _ => None
                 end) t.

(** ** A mock process

    One kernel (dimensionality 2, global size 32x32, local size 2x2), one
    device with a default queue, one device without, and three drivers: one
    on which every call succeeds, one whose submission primitive answers
    error code 5, one whose wait primitive fails. *)

Definition mock_kernel : GoclKernelPrivate :=
  {| kernel := 10; name := "my_kernel"; program := None;
     global_work_size := [32; 32; 0];
     local_work_size := [2; 2; 0]; work_dim := 2 |}.

Definition mock_world : World :=
  {| objects :=
       <[1%positive := GoclKernel mock_kernel]>
         (<[2%positive := GoclDevice (Some 3%positive)]>
            (<[3%positive := GoclQueue 99]>
               (<[4%positive := GoclDevice None]> ∅)));
     trace := [];
     gocl_error := None |}.

Definition mock_message (c : cl_int) : string := "OpenCL error".

Definition driver_ok (h : list Effect) (c : NativeCall) : cl_int * cl_handle :=
  match c with
  | clEnqueueNDRangeKernel _ _ _ _ _ _ _ _ => (CL_SUCCESS, 77)
  | clCreateKernel _ _ => (CL_SUCCESS, 10)
  | _ => (CL_SUCCESS, 0)
  end.

Definition driver_submit_fails (h : list Effect) (c : NativeCall)
    : cl_int * cl_handle :=
  match c with
  | clEnqueueNDRangeKernel _ _ _ _ _ _ _ _ => (5, 0)
  | _ => (CL_SUCCESS, 0)
  end.

Definition driver_wait_fails (h : list Effect) (c : NativeCall)
    : cl_int * cl_handle :=
  match c with
  | clEnqueueNDRangeKernel _ _ _ _ _ _ _ _ => (CL_SUCCESS, 77)
  | clWaitForEvents _ _ => (-14, 0)
  | _ => (CL_SUCCESS, 0)
  end.

(** ** Reading a property back

    [get_property] of the kernel class; GObject calls it on instances of the
    class only.  The result is the value written to the caller's [GValue],
    [None] when nothing is written. *)
Definition get_property (obj : ptr) (prop_id : Z) : M (option GValue) :=
  self ← GOCL_IS_KERNEL (Some obj);
  match self with
  | None => mret None
  | Some priv =>
      if decide (prop_id = PROP_PROGRAM) then
        mret (Some (GValueObject (program priv)))
      else if decide (prop_id = PROP_NAME) then
        mret (Some (GValueString (name priv)))
      else (emit (Warning "invalid property id");; mret None)
  end.

(** ** Callers

    What a caller can do with a kernel handle through the public functions
    of [gocl-kernel.c], and a caller as a sequence of such calls. *)
Inductive KernelOp :=
  | OpSetArgument (index size buffer : Z)
  | OpSetArgumentInt32 (index num_elements buffer : Z)
  | OpSetArgumentFloat (index num_elements buffer : Z)
  | OpSetArgumentBuffer (index : Z) (buffer : option ptr)
  | OpRunInDeviceSync (device : option ptr) (event_wait_list : list ptr)
  | OpRunInDevice (device : option ptr) (event_wait_list : list ptr)
  | OpSetWorkDimension (work_dim : Z)
  | OpSetGlobalWorkSize (size1 size2 size3 : Z)
  | OpSetLocalWorkSize (size1 size2 size3 : Z).

Definition kernel_op (driver : list Effect -> NativeCall -> cl_int * cl_handle)
    (message : cl_int -> string) (self : option ptr) (op : KernelOp)
    : M unit :=
  match op with
  | OpSetArgument index size buffer =>
      gocl_kernel_set_argument driver message self index size buffer;;
      mret tt
  | OpSetArgumentInt32 index n buffer =>
      gocl_kernel_set_argument_int32 driver message self index n buffer;;
      mret tt
  | OpSetArgumentFloat index n buffer =>
      gocl_kernel_set_argument_float driver message self index n buffer;;
      mret tt
  | OpSetArgumentBuffer index buffer =>
      gocl_kernel_set_argument_buffer driver message self index buffer;;
      mret tt
  | OpRunInDeviceSync device l =>
      gocl_kernel_run_in_device_sync driver message self device l;;
      mret tt
  | OpRunInDevice device l =>
      gocl_kernel_run_in_device driver message self device l;;
      mret tt
  | OpSetWorkDimension work_dim =>
      gocl_kernel_set_work_dimension self work_dim
  | OpSetGlobalWorkSize size1 size2 size3 =>
      gocl_kernel_set_global_work_size self size1 size2 size3
  | OpSetLocalWorkSize size1 size2 size3 =>
      gocl_kernel_set_local_work_size self size1 size2 size3
  end.

Fixpoint kernel_ops (driver : list Effect -> NativeCall -> cl_int * cl_handle)
    (message : cl_int -> string) (self : option ptr) (ops : list KernelOp)
    : M unit :=
  match ops with
  | [] => mret tt
  | op :: rest =>
      kernel_op driver message self op;;
      kernel_ops driver message self rest
  end.

(** A live handle that is not a kernel: [NULL], or an instance of another
    class. *)
Definition not_a_kernel (w : World) (self : option ptr) : Prop :=
  match self with
  | None => True
  | Some p =>
      match objects w !! p with
      | Some (GoclKernel _) | None => False
      | Some _ => True
      end
  end.

(** A handle on which the store shows no kernel instance, so that the class
    check fails on it here. *)
Definition invalid_kernel (w : World) (self : option ptr) : Prop :=
  match self with
  | None => True
  | Some p =>
      match objects w !! p with
      | Some (GoclKernel _) => False
      | _ => True
      end
  end.

Definition invalid_device (w : World) (device : option ptr) : Prop :=
  match device with
  | None => True
  | Some p =>
      match objects w !! p with
      | Some (GoclDevice _) => False
      | _ => True
      end
  end.

(** The world after a failed [g_return_if_fail]. *)
Definition with_critical (check : string) (w : World) : World :=
  set_trace (trace w ++ [Critical check]) w.

(** The configuration a submission needs: a work dimensionality of 1, 2 or
    3 and two three-slot vectors. *)
Definition kernel_configured (priv : GoclKernelPrivate) : Prop :=
  1 <= work_dim priv <= 3
  /\ length (global_work_size priv) = 3%nat
  /\ length (local_work_size priv) = 3%nat.

(** The driver calls of a trace, oldest first. *)
Definition native_calls (t : list Effect) : list NativeCall :=
  omap (fun e => match e with Native c => Some c | _ => None end) t.

(** The structured error made from a native code. *)
Definition native_error (message : cl_int -> string) (err_code : cl_int)
    : GError :=
  {| code := err_code; message := message err_code |}.

(** A [gsize] value, and a [WorkSize] of three of them. *)
Definition is_gsize (v : Z) : Prop := 0 <= v <= G_MAXSIZE.

(** What a caller may rely on across calls: the handle is a kernel instance
    with the same native kernel, name and program, and it is configured. *)
Definition kernel_state_ok (w : World) (self : ptr) (k : cl_handle)
    (n : string) (prog : option ptr) : Prop :=
  exists priv,
    objects w !! self = Some (GoclKernel priv)
    /\ kernel priv = k /\ name priv = n /\ program priv = prog
    /\ kernel_configured priv.

(** A size argument the driver can take: absent, or three slots of which
    the first is not zero. *)
Definition size_arg_ok (arg : option (list Z)) : Prop :=
  arg = None \/ exists s1 s2 s3, arg = Some [s1; s2; s3] /\ s1 <> 0.

(** A driver call a caller of kernel [k] may cause: any call that is not a
    submission, or a submission of [k] with a dimensionality of 1, 2 or 3,
    no global offset, and acceptable size arguments. *)
Definition native_call_ok (k : cl_handle) (c : NativeCall) : Prop :=
  match c with
  | clEnqueueNDRangeKernel _ k' dim offset gsz lsz _ _ =>
      k' = k /\ 1 <= dim <= 3 /\ offset = None
      /\ size_arg_ok gsz /\ size_arg_ok lsz
  | clCreateKernel _ _ | clReleaseKernel _ => False
  | _ => True
  end.

(** What one or several calls on kernel [self] keep, from a world [w] to a
    world [w']: the kernel state, every other instance that was there, and
    a trace that only grows, by driver calls a caller may cause. *)
Definition calls_keep (w w' : World) (self : ptr) (k : cl_handle)
    (n : string) (prog : option ptr) : Prop :=
  kernel_state_ok w' self k n prog
  /\ (forall p o, p <> self -> objects w !! p = Some o ->
                  objects w' !! p = Some o)
  /\ exists t, trace w' = trace w ++ t
               /\ Forall (native_call_ok k) (native_calls t).


(** More of the mock process: a program, a buffer, and drivers that fail at
    kernel creation or at argument binding. *)
Definition mock_world_full : World :=
  {| objects :=
       <[1%positive := GoclKernel mock_kernel]>
         (<[2%positive := GoclDevice (Some 3%positive)]>
            (<[3%positive := GoclQueue 99]>
               (<[4%positive := GoclDevice None]>
                  (<[5%positive := GoclProgram 55]>
                     (<[6%positive := GoclBuffer 66]> ∅)))));
     trace := [];
     gocl_error := None |}.


Definition driver_set_arg_fails (h : list Effect) (c : NativeCall)
    : cl_int * cl_handle :=
  match c with
  | clSetKernelArg _ _ _ _ => (-49, 0)
  | _ => (CL_SUCCESS, 0)
  end.

(** ** Stepping through the monad *)

Ltac munfold :=
  cbv beta iota zeta delta
    [mbind M_bind mret M_ret GOCL_IS_KERNEL GOCL_IS_DEVICE GOCL_IS_EVENT
     lookup_object update_kernel update_event store_object g_critical emit
     g_object_alloc gocl_device_get_default_queue gocl_queue_get_queue].

Ltac mcbn :=
  cbn [objects trace gocl_error set_objects set_trace set_gocl_error
       ev_state ev_queue ev_event ev_resolver_func ev_event_wait_list
       set_ev_state set_ev_resolver_func set_ev_event_wait_list
       negb fst snd].

Lemma update_kernel_run (w : World) (p : ptr) (priv : GoclKernelPrivate) f :
  objects w !! p = Some (GoclKernel priv) ->
  update_kernel (Some p) f w
  = (tt, set_objects (<[p := GoclKernel (f priv)]> (objects w)) w).
Proof. intros H. munfold. simpl. by rewrite H. Qed.

Lemma WorkSize_store_all (ws : list Z) (a b c : Z) :
  length ws = 3%nat -> <[2%nat := c]> (<[1%nat := b]> (<[0%nat := a]> ws)) = [a; b; c].
Proof. destruct ws as [|x [|y [|z [|? ?]]]]; simpl; intros; by simplify_eq. Qed.

(** ** Marshalling a dependency list only reports usage errors *)

Lemma gocl_event_get_event_frame (node : ptr) (w : World) :
  exists h msgs,
    gocl_event_get_event node w
    = (h, set_trace (trace w ++ map Critical msgs) w).
Proof.
  unfold gocl_event_get_event. munfold.
  destruct (objects w !! node) as [[| | |priv| |]|];
    try (eexists 0, [_]; reflexivity).
  destruct (ev_state priv); [destruct (decide (ev_event priv = 0))|..];
    first [ eexists _, [_]; reflexivity
          | eexists _, []; cbn; rewrite app_nil_r; destruct w; reflexivity ].
Qed.

Lemma gocl_event_list_project_frame (event_list : list ptr) (w : World) :
  exists hs msgs,
    gocl_event_list_project event_list w
    = (hs, set_trace (trace w ++ map Critical msgs) w).
Proof.
  revert w. induction event_list as [|node rest IH]; intros w.
  - exists [], []. cbn. rewrite app_nil_r. by destruct w.
  - cbn [gocl_event_list_project]. unfold mbind, M_bind.
    destruct (gocl_event_get_event_frame node w) as (h & m1 & ->).
    destruct (IH (set_trace (trace w ++ map Critical m1) w)) as (hs & m2 & ->).
    exists (h :: hs), (m1 ++ m2). unfold mret, M_ret, set_trace. cbn.
    by rewrite map_app, app_assoc.
Qed.

Lemma gocl_event_list_to_array_frame (event_list : list ptr) (w : World) a w1 :
  gocl_event_list_to_array event_list w = (a, w1) ->
  exists msgs, w1 = set_trace (trace w ++ map Critical msgs) w.
Proof.
  destruct event_list as [|node rest]; cbn [gocl_event_list_to_array].
  - intros [= <- <-]. exists []. cbn. rewrite app_nil_r. by destruct w.
  - unfold mbind, M_bind.
    destruct (gocl_event_list_project_frame (node :: rest) w) as (hs & m & ->).
    intros [= <- <-]. by exists m.
Qed.

Section KernelFacts.

Variable driver : list Effect -> NativeCall -> cl_int * cl_handle.
Variable gocl_error_get_message : cl_int -> string.

Lemma set_global_work_size_run w self priv a b c :
  valid_kernel w self priv ->
  gocl_kernel_set_global_work_size (Some self) a b c w
  = (tt, set_objects
           (<[self := GoclKernel (set_global [a; b; c] priv)]> (objects w)) w).
Proof.
  intros (Hk & Hg & Hl). unfold gocl_kernel_set_global_work_size.
  munfold.
  repeat (rewrite ?Hk, ?lookup_insert_eq; cbn [set_objects objects]).
  rewrite !insert_insert_eq. cbn. by rewrite WorkSize_store_all.
Qed.

Lemma set_local_work_size_run w self priv a b c :
  valid_kernel w self priv ->
  gocl_kernel_set_local_work_size (Some self) a b c w
  = (tt, set_objects
           (<[self := GoclKernel (set_local [a; b; c] priv)]> (objects w)) w).
Proof.
  intros (Hk & Hg & Hl). unfold gocl_kernel_set_local_work_size.
  munfold.
  repeat (rewrite ?Hk, ?lookup_insert_eq; cbn [set_objects objects]).
  rewrite !insert_insert_eq. cbn. by rewrite WorkSize_store_all.
Qed.

Lemma run_in_device_run w self priv device q l a w1 :
  valid_kernel w self priv ->
  valid_device w device (Some q) ->
  gocl_event_list_to_array l w = (a, w1) ->
  gocl_kernel_run_in_device driver gocl_error_get_message
    (Some self) (Some device) l w
  = let c := submission priv (native_queue w q) a.2 a.1 in
    let r := driver (trace w1) c in
    let p := fresh (dom (objects w)) in
    if decide (r.1 = CL_SUCCESS) then
      (Some p,
       {| objects := <[p := GoclEvent (submitted_token q r.2 l)]> (objects w);
          trace := trace w1 ++ [Native c; IdleUnref p];
          gocl_error := gocl_error w |})
    else
      let e := {| code := r.1; message := gocl_error_get_message r.1 |} in
      (Some p,
       {| objects := <[p := GoclEvent (failed_token q e)]> (objects w);
          trace := trace w1 ++ [Native c;
                                ResolverCall gocl_event_resolve (Some p) (Some e);
                                IdleUnref p];
          gocl_error := gocl_error w |}).
Proof.
  intros (Hk & Hg & Hl) Hd Ha. unfold valid_device in Hd.
  destruct (gocl_event_list_to_array_frame _ _ _ _ Ha) as (msgs & ->).
  destruct a as [arr n].
  unfold gocl_kernel_run_in_device, submission, native_queue, cl_call,
    g_object_new_GoclEvent, gocl_event_set_event_wait_list,
    gocl_event_steal_resolver_func, gocl_event_idle_unref,
    call_resolver_func, gocl_event_resolve_body, gocl_error_check_opencl.
  munfold.
  repeat (rewrite ?Hk, ?Hd, ?Ha; mcbn).
  destruct (driver _ _) as [err event]. mcbn.
  destruct (decide (err = CL_SUCCESS)) as [He|He]; mcbn.
  - repeat (rewrite ?lookup_insert_eq, ?insert_insert_eq; mcbn).
    unfold submitted_token. by rewrite <- !app_assoc.
  - repeat (rewrite ?lookup_insert_eq, ?insert_insert_eq; mcbn).
    unfold failed_token. by rewrite <- !app_assoc.
Qed.

Lemma run_in_device_no_queue w self priv device l a w1 :
  valid_kernel w self priv ->
  valid_device w device None ->
  gocl_event_list_to_array l w = (a, w1) ->
  gocl_kernel_run_in_device driver gocl_error_get_message
    (Some self) (Some device) l w
  = (None, set_trace (trace w1 ++ [Critical "GOCL_IS_EVENT (self)"]) w1).
Proof.
  intros (Hk & Hg & Hl) Hd Ha. unfold valid_device in Hd.
  destruct (gocl_event_list_to_array_frame _ _ _ _ Ha) as (msgs & ->).
  destruct a as [arr n].
  unfold gocl_kernel_run_in_device, gocl_event_idle_unref. munfold.
  by repeat (rewrite ?Hk, ?Hd, ?Ha; mcbn).
Qed.

Lemma run_in_device_sync_run w self priv device q l a w1 :
  valid_kernel w self priv ->
  valid_device w device (Some q) ->
  gocl_event_list_to_array l w = (a, w1) ->
  gocl_kernel_run_in_device_sync driver gocl_error_get_message
    (Some self) (Some device) l w
  = let c := submission priv (native_queue w q) (g_list_length l) a.1 in
    let r := driver (trace w1) c in
    if decide (r.1 = CL_SUCCESS) then
      (true,
       {| objects := objects w;
          trace := trace w1 ++ [Native c;
                                Native (clWaitForEvents 1 [r.2]);
                                Native (clReleaseEvent r.2)];
          gocl_error := gocl_error w |})
    else
      (false,
       {| objects := objects w;
          trace := trace w1 ++ [Native c];
          gocl_error :=
            Some {| code := r.1; message := gocl_error_get_message r.1 |} |}).
Proof.
  intros (Hk & Hg & Hl) Hd Ha. unfold valid_device in Hd.
  destruct (gocl_event_list_to_array_frame _ _ _ _ Ha) as (msgs & ->).
  destruct a as [arr n].
  unfold gocl_kernel_run_in_device_sync, submission, native_queue, cl_call,
    gocl_error_check_opencl_internal, gocl_error_check_opencl.
  munfold.
  repeat (rewrite ?Hk, ?Hd, ?Ha; mcbn).
  destruct (driver _ _) as [err event]. mcbn.
  destruct (decide (err = CL_SUCCESS)) as [He|He]; mcbn.
  - by rewrite <- !app_assoc.
  - done.
Qed.

Lemma run_in_device_sync_no_queue w self priv device l :
  valid_kernel w self priv ->
  valid_device w device None ->
  gocl_kernel_run_in_device_sync driver gocl_error_get_message
    (Some self) (Some device) l w
  = (false, w).
Proof.
  intros (Hk & Hg & Hl) Hd. unfold valid_device in Hd.
  unfold gocl_kernel_run_in_device_sync. munfold.
  by repeat (rewrite ?Hk, ?Hd; mcbn).
Qed.

Lemma resolver_calls_app (t1 t2 : list Effect) :
  resolver_calls (t1 ++ t2) = resolver_calls t1 ++ resolver_calls t2.
Proof. apply omap_app. Qed.

Lemma resolver_calls_criticals (msgs : list string) :
  resolver_calls (map Critical msgs) = [].
Proof. induction msgs as [|m msgs IH]; [done | exact IH]. Qed.

Lemma enqueue_calls_app (t1 t2 : list Effect) :
  enqueue_calls (t1 ++ t2) = enqueue_calls t1 ++ enqueue_calls t2.
Proof. apply omap_app. Qed.

Lemma enqueue_calls_criticals (msgs : list string) :
  enqueue_calls (map Critical msgs) = [].
Proof. induction msgs as [|m msgs IH]; [done | exact IH]. Qed.

Lemma work_size_arg_first (ws : list Z) (v : Z) :
  ws !! 0%nat = Some v ->
  work_size_arg ws = if decide (v = 0) then None else Some ws.
Proof.
  intros H. unfold work_size_arg.
  by rewrite (list_lookup_total_correct _ _ _ H).
Qed.

Lemma WorkSize_first (ws : list Z) :
  length ws = 3%nat -> exists v, ws !! 0%nat = Some v.
Proof. destruct ws as [|v ws]; [done | by exists v]. Qed.

(** ** Work dimensionality *)

(** C5: the work-dimension setter, called on a valid Dispatcher with a value
    outside [1,3], reports a contract violation and leaves the store (hence
    the stored dimensionality) as it was; called with a value in [1,3], it
    reports nothing and the stored dimensionality becomes exactly that
    value, the other fields staying as they were. *)
Theorem set_work_dimension_contract w self priv (dim : Z) :
  valid_kernel w self priv ->
  gocl_kernel_set_work_dimension (Some self) dim w
  = if decide (1 <= dim <= 3)
    then (tt,
          {| objects :=
               <[self := GoclKernel
                           {| kernel := kernel priv; name := name priv;
                              program := program priv;
                              global_work_size := global_work_size priv;
                              local_work_size := local_work_size priv;
                              work_dim := dim |}]> (objects w);
             trace := trace w;
             gocl_error := gocl_error w |})
    else (tt,
          {| objects := objects w;
             trace := trace w ++ [Critical "work_dim > 0 && work_dim <= 3"];
             gocl_error := gocl_error w |}).
Proof.
  intros (Hk & _). unfold gocl_kernel_set_work_dimension. munfold.
  rewrite Hk.
  destruct (decide (1 <= dim <= 3)) as [Hin|Hout].
  - replace (0 <? dim) with true by (symmetry; apply Z.ltb_lt; lia).
    replace (dim <=? 3) with true by (symmetry; apply Z.leb_le; lia).
    cbn [andb negb]. by rewrite Hk.
  - destruct (0 <? dim) eqn:Hlo; destruct (dim <=? 3) eqn:Hhi;
      cbn [andb negb]; try done.
    apply Z.ltb_lt in Hlo. apply Z.leb_le in Hhi. lia.
Qed.

(** ** What a run submits *)

Lemma run_in_device_sync_submits w self priv device q l a w1 :
  valid_kernel w self priv ->
  valid_device w device (Some q) ->
  gocl_event_list_to_array l w = (a, w1) ->
  enqueue_calls
    (trace (gocl_kernel_run_in_device_sync driver gocl_error_get_message
              (Some self) (Some device) l w).2)
  = enqueue_calls (trace w)
      ++ [submission priv (native_queue w q) (g_list_length l) a.1].
Proof.
  intros Hk Hd Ha. rewrite (run_in_device_sync_run _ _ _ _ _ _ _ _ Hk Hd Ha).
  destruct (gocl_event_list_to_array_frame _ _ _ _ Ha) as (msgs & ->).
  cbn zeta. destruct (decide _); cbn [snd trace set_trace];
    rewrite !enqueue_calls_app, enqueue_calls_criticals, app_nil_r; done.
Qed.

Lemma run_in_device_submits w self priv device q l a w1 :
  valid_kernel w self priv ->
  valid_device w device (Some q) ->
  gocl_event_list_to_array l w = (a, w1) ->
  enqueue_calls
    (trace (gocl_kernel_run_in_device driver gocl_error_get_message
              (Some self) (Some device) l w).2)
  = enqueue_calls (trace w) ++ [submission priv (native_queue w q) a.2 a.1].
Proof.
  intros Hk Hd Ha. rewrite (run_in_device_run _ _ _ _ _ _ _ _ Hk Hd Ha).
  destruct (gocl_event_list_to_array_frame _ _ _ _ Ha) as (msgs & ->).
  cbn zeta. destruct (decide _); cbn [snd trace set_trace];
    rewrite !enqueue_calls_app, enqueue_calls_criticals, app_nil_r; done.
Qed.

Lemma valid_device_after_kernel_store w self priv priv' device dq :
  valid_kernel w self priv ->
  valid_device w device dq ->
  valid_device (set_objects (<[self := GoclKernel priv']> (objects w)) w)
    device dq.
Proof.
  intros (Hk & _) Hd. unfold valid_device in *. cbn.
  rewrite lookup_insert_ne; [done | congruence].
Qed.

Lemma set_global_work_size_twice w self priv a1 a2 a3 b1 b2 b3 :
  valid_kernel w self priv ->
  (gocl_kernel_set_global_work_size (Some self) b1 b2 b3
     (gocl_kernel_set_global_work_size (Some self) a1 a2 a3 w).2).2
  = {| objects :=
         <[self := GoclKernel (set_global [b1; b2; b3] priv)]> (objects w);
       trace := trace w; gocl_error := gocl_error w |}.
Proof.
  intros Hv. pose proof Hv as (Hk & Hg & Hl).
  rewrite (set_global_work_size_run w self priv a1 a2 a3 Hv). cbn [snd].
  erewrite set_global_work_size_run; last first.
  { split; [apply lookup_insert_eq | by split]. }
  unfold set_objects. cbn. by rewrite insert_insert_eq.
Qed.

Lemma set_local_work_size_twice w self priv a1 a2 a3 b1 b2 b3 :
  valid_kernel w self priv ->
  (gocl_kernel_set_local_work_size (Some self) b1 b2 b3
     (gocl_kernel_set_local_work_size (Some self) a1 a2 a3 w).2).2
  = {| objects :=
         <[self := GoclKernel (set_local [b1; b2; b3] priv)]> (objects w);
       trace := trace w; gocl_error := gocl_error w |}.
Proof.
  intros Hv. pose proof Hv as (Hk & Hg & Hl).
  rewrite (set_local_work_size_run w self priv a1 a2 a3 Hv). cbn [snd].
  erewrite set_local_work_size_run; last first.
  { split; [apply lookup_insert_eq | by split]. }
  unfold set_objects. cbn. by rewrite insert_insert_eq.
Qed.

(** ** Work sizes *)

(** C9: two successive calls of the same work-size setter on a valid
    Dispatcher leave exactly the three values of the second call in the
    vector (slot by slot), whatever the first call stored, and nothing else
    changes; the next run, synchronous or asynchronous, submits with the
    size taken from that vector ([NULL] when its first slot is zero). *)
Theorem work_size_setter_last_call_wins w self priv device q l
    (a1 a2 a3 b1 b2 b3 : Z) :
  valid_kernel w self priv ->
  valid_device w device (Some q) ->
  (let w2 := (gocl_kernel_set_global_work_size (Some self) b1 b2 b3
                (gocl_kernel_set_global_work_size (Some self) a1 a2 a3 w).2).2
   in
   objects w2
   = <[self := GoclKernel (set_global [b1; b2; b3] priv)]> (objects w)
   /\ trace w2 = trace w
   /\ (exists qh n arr,
         enqueue_calls
           (trace (gocl_kernel_run_in_device_sync driver
                     gocl_error_get_message (Some self) (Some device) l w2).2)
         = enqueue_calls (trace w2)
             ++ [clEnqueueNDRangeKernel qh (kernel priv) (work_dim priv) None
                   (if decide (b1 = 0) then None else Some [b1; b2; b3])
                   (work_size_arg (local_work_size priv)) n arr])
   /\ (exists qh n arr,
         enqueue_calls
           (trace (gocl_kernel_run_in_device driver
                     gocl_error_get_message (Some self) (Some device) l w2).2)
         = enqueue_calls (trace w2)
             ++ [clEnqueueNDRangeKernel qh (kernel priv) (work_dim priv) None
                   (if decide (b1 = 0) then None else Some [b1; b2; b3])
                   (work_size_arg (local_work_size priv)) n arr]))
  /\
  (let w2 := (gocl_kernel_set_local_work_size (Some self) b1 b2 b3
                (gocl_kernel_set_local_work_size (Some self) a1 a2 a3 w).2).2
   in
   objects w2
   = <[self := GoclKernel (set_local [b1; b2; b3] priv)]> (objects w)
   /\ trace w2 = trace w
   /\ (exists qh n arr,
         enqueue_calls
           (trace (gocl_kernel_run_in_device_sync driver
                     gocl_error_get_message (Some self) (Some device) l w2).2)
         = enqueue_calls (trace w2)
             ++ [clEnqueueNDRangeKernel qh (kernel priv) (work_dim priv) None
                   (work_size_arg (global_work_size priv))
                   (if decide (b1 = 0) then None else Some [b1; b2; b3])
                   n arr])
   /\ (exists qh n arr,
         enqueue_calls
           (trace (gocl_kernel_run_in_device driver
                     gocl_error_get_message (Some self) (Some device) l w2).2)
         = enqueue_calls (trace w2)
             ++ [clEnqueueNDRangeKernel qh (kernel priv) (work_dim priv) None
                   (work_size_arg (global_work_size priv))
                   (if decide (b1 = 0) then None else Some [b1; b2; b3])
                   n arr])).
Proof.
  intros Hv Hd. pose proof Hv as (Hk & Hg & Hl). split.
  - rewrite (set_global_work_size_twice w self priv) by done.
    set (priv2 := set_global [b1; b2; b3] priv).
    set (w2 := {| objects := <[self:=GoclKernel priv2]> (objects w);
                  trace := trace w; gocl_error := gocl_error w |}).
    assert (Hv2 : valid_kernel w2 self priv2).
    { split; [apply lookup_insert_eq | by split]. }
    assert (Hd2 : valid_device w2 device (Some q)).
    { by apply (valid_device_after_kernel_store w self priv priv2). }
    destruct (gocl_event_list_to_array l w2) as [a w1] eqn:Ha.
    cbn zeta. split; [done|]. split; [done|]. split.
    + eexists _, _, _.
      by rewrite (run_in_device_sync_submits _ _ _ _ _ _ _ _ Hv2 Hd2 Ha).
    + eexists _, _, _.
      by rewrite (run_in_device_submits _ _ _ _ _ _ _ _ Hv2 Hd2 Ha).
  - rewrite (set_local_work_size_twice w self priv) by done.
    set (priv2 := set_local [b1; b2; b3] priv).
    set (w2 := {| objects := <[self:=GoclKernel priv2]> (objects w);
                  trace := trace w; gocl_error := gocl_error w |}).
    assert (Hv2 : valid_kernel w2 self priv2).
    { split; [apply lookup_insert_eq | by split]. }
    assert (Hd2 : valid_device w2 device (Some q)).
    { by apply (valid_device_after_kernel_store w self priv priv2). }
    destruct (gocl_event_list_to_array l w2) as [a w1] eqn:Ha.
    cbn zeta. split; [done|]. split; [done|]. split.
    + eexists _, _, _.
      by rewrite (run_in_device_sync_submits _ _ _ _ _ _ _ _ Hv2 Hd2 Ha).
    + eexists _, _, _.
      by rewrite (run_in_device_submits _ _ _ _ _ _ _ _ Hv2 Hd2 Ha).
Qed.

(** C4: a run, synchronous or asynchronous, of a valid Dispatcher on a
    device with a default queue makes one submission; its global size is
    [NULL] when the first slot of the stored global vector is 0, and the
    stored three-slot vector itself otherwise, never a zero-sized range. *)
Theorem run_global_size_absent_when_zero w self priv device q l :
  valid_kernel w self priv ->
  valid_device w device (Some q) ->
  let a := (gocl_event_list_to_array l w).1 in
  exists first,
    global_work_size priv !! 0%nat = Some first
    /\ enqueue_calls
         (trace (gocl_kernel_run_in_device_sync driver
                   gocl_error_get_message (Some self) (Some device) l w).2)
       = enqueue_calls (trace w)
           ++ [clEnqueueNDRangeKernel (native_queue w q) (kernel priv)
                 (work_dim priv) None
                 (if decide (first = 0) then None
                  else Some (global_work_size priv))
                 (work_size_arg (local_work_size priv))
                 (g_list_length l) a.1]
    /\ enqueue_calls
         (trace (gocl_kernel_run_in_device driver
                   gocl_error_get_message (Some self) (Some device) l w).2)
       = enqueue_calls (trace w)
           ++ [clEnqueueNDRangeKernel (native_queue w q) (kernel priv)
                 (work_dim priv) None
                 (if decide (first = 0) then None
                  else Some (global_work_size priv))
                 (work_size_arg (local_work_size priv))
                 a.2 a.1].
Proof.
  intros Hv Hd. pose proof Hv as (Hk & Hg & Hl).
  destruct (WorkSize_first _ Hg) as [first Hfirst].
  destruct (gocl_event_list_to_array l w) as [a w1] eqn:Ha.
  cbn zeta. cbn [fst]. exists first. split; [done|]. split.
  - rewrite (run_in_device_sync_submits _ _ _ _ _ _ _ _ Hv Hd Ha).
    unfold submission. by rewrite (work_size_arg_first _ _ Hfirst).
  - rewrite (run_in_device_submits _ _ _ _ _ _ _ _ Hv Hd Ha).
    unfold submission. by rewrite (work_size_arg_first _ _ Hfirst).
Qed.

(** C7: a run, synchronous or asynchronous, whose dependency list is null or
    empty makes its submission with wait-handle count 0 and no wait-handle
    array. *)
Theorem run_empty_wait_list_not_gated w self priv device q :
  valid_kernel w self priv ->
  valid_device w device (Some q) ->
  enqueue_calls
    (trace (gocl_kernel_run_in_device_sync driver gocl_error_get_message
              (Some self) (Some device) [] w).2)
  = enqueue_calls (trace w)
      ++ [clEnqueueNDRangeKernel (native_queue w q) (kernel priv)
            (work_dim priv) None
            (work_size_arg (global_work_size priv))
            (work_size_arg (local_work_size priv)) 0 None]
  /\ enqueue_calls
       (trace (gocl_kernel_run_in_device driver gocl_error_get_message
                 (Some self) (Some device) [] w).2)
     = enqueue_calls (trace w)
         ++ [clEnqueueNDRangeKernel (native_queue w q) (kernel priv)
               (work_dim priv) None
               (work_size_arg (global_work_size priv))
               (work_size_arg (local_work_size priv)) 0 None].
Proof.
  intros Hv Hd.
  assert (Ha : gocl_event_list_to_array [] w = ((None, 0), w)) by done.
  split.
  - by rewrite (run_in_device_sync_submits _ _ _ _ _ _ _ _ Hv Hd Ha).
  - by rewrite (run_in_device_submits _ _ _ _ _ _ _ _ Hv Hd Ha).
Qed.

(** ** Argument binding *)

(** C8, as the code has it: binding an int32 array of [N] elements on a
    valid Dispatcher, where [N] times the size of a native 32-bit integer
    fits a [gsize], makes one call of the native argument-setting primitive,
    with the index, a size of exactly that product, and the caller's buffer
    pointer. *)
Theorem set_argument_int32_size w self priv (index N buffer : Z) :
  valid_kernel w self priv ->
  0 <= N ->
  N * sizeof_cl_uint <= G_MAXSIZE ->
  trace (gocl_kernel_set_argument_int32 driver gocl_error_get_message
           (Some self) index N buffer w).2
  = trace w
      ++ [Native (clSetKernelArg (kernel priv) index (N * sizeof_cl_uint)
                    (ArgHost buffer))].
Proof.
  intros (Hk & _) H0 Hmax.
  unfold gocl_kernel_set_argument_int32, gocl_kernel_set_argument, cl_call,
    gocl_error_check_opencl_internal.
  munfold. rewrite Hk. mcbn.
  destruct (gocl_error_check_opencl _ _ _). mcbn.
  unfold to_gsize. rewrite Z.mod_small.
  - by rewrite (Z.mul_comm sizeof_cl_uint N).
  - unfold G_MAXSIZE, sizeof_cl_uint in *. lia.
Qed.

(** [sizeof (cl_uint) * num_elements] is a [gsize] product, and the binding
    calls do not check it: for every count the size handed over is the
    product reduced modulo [2 ^ 64]. *)
Lemma set_argument_int32_size_wraps w self priv (index N buffer : Z) :
  valid_kernel w self priv ->
  trace (gocl_kernel_set_argument_int32 driver gocl_error_get_message
           (Some self) index N buffer w).2
  = trace w
      ++ [Native (clSetKernelArg (kernel priv) index
                    ((sizeof_cl_uint * N) mod 2 ^ 64) (ArgHost buffer))].
Proof.
  intros (Hk & _).
  unfold gocl_kernel_set_argument_int32, gocl_kernel_set_argument, cl_call,
    gocl_error_check_opencl_internal.
  munfold. rewrite Hk. mcbn.
  by destruct (gocl_error_check_opencl _ _ _).
Qed.

(** ** Construction *)

Lemma fresh_object_unused (w : World) :
  objects w !! fresh (dom (objects w)) = None.
Proof. apply not_elem_of_dom, is_fresh. Qed.

(** C6: a freshly created Dispatcher, before any setter call, has work
    dimensionality 1, and the three slots of its global and of its local
    work-size vector are all 0. *)
Theorem new_kernel_defaults w prog kernel_name p error w' :
  g_initable_new_GoclKernel driver gocl_error_get_message prog kernel_name w
  = ((Some p, error), w') ->
  exists priv,
    valid_kernel w' p priv
    /\ objects w !! p = None
    /\ work_dim priv = 1
    /\ global_work_size priv = [0; 0; 0]
    /\ local_work_size priv = [0; 0; 0].
Proof.
  unfold g_initable_new_GoclKernel, gocl_kernel_init, set_property,
    gocl_kernel_initable_init,
    gocl_program_get_program, cl_call, gocl_error_check_opencl.
  destruct (decide (PROP_PROGRAM = PROP_PROGRAM)) as [_|?]; [|done].
  destruct (decide (PROP_NAME = PROP_PROGRAM)) as [?|_]; [done|].
  destruct (decide (PROP_NAME = PROP_NAME)) as [_|?]; [|done].
  munfold. mcbn.
  repeat (rewrite ?lookup_insert_eq, ?insert_insert_eq; mcbn).
  destruct (driver _ _) as [err_code k]. mcbn.
  repeat (rewrite ?lookup_insert_eq, ?insert_insert_eq; mcbn).
  destruct (decide (err_code = CL_SUCCESS)) as [He|He]; mcbn.
  - intros [= <- <- <-]. eexists. split; [|split].
    + split; [apply lookup_insert_eq | by split].
    + apply fresh_object_unused.
    + done.
  - destruct (gocl_kernel_finalize _ _ _) as [[] wf]. discriminate.
Qed.

(** [memset (&priv->global_work_size, 0, 3)] clears three bytes, not three
    slots: on memory that is not already zero the initialiser alone would
    leave the vector dirty.  The defaults rest on the zero-filled instance
    memory. *)
Lemma memset_three_bytes_only :
  memset_WorkSize [2 ^ 64 - 1; 5; 6] 0 3 = [2 ^ 64 - 2 ^ 24; 5; 6].
Proof. reflexivity. Qed.

(** ** Asynchronous runs *)

(** C1: when the submission primitive answers an asynchronous run with an
    error code, the run returns a new token that is in Resolved-Error state
    carrying that code, and between the submission and the return the
    resolver taken from that token is invoked exactly once, on that token
    and with that error. *)
Theorem run_in_device_submission_error w self priv device q l a w1 err :
  valid_kernel w self priv ->
  valid_device w device (Some q) ->
  gocl_event_list_to_array l w = (a, w1) ->
  (driver (trace w1) (submission priv (native_queue w q) a.2 a.1)).1 = err ->
  err <> CL_SUCCESS ->
  exists p tok w',
    let e := {| code := err; message := gocl_error_get_message err |} in
    gocl_kernel_run_in_device driver gocl_error_get_message
      (Some self) (Some device) l w = (Some p, w')
    /\ objects w !! p = None
    /\ objects w' !! p = Some (GoclEvent tok)
    /\ ev_state tok = ResolvedError e
    /\ ev_resolver_func tok = None
    /\ resolver_calls (trace w')
       = resolver_calls (trace w) ++ [(Some p, Some e)]
    /\ trace w'
       = trace w1 ++ [Native (submission priv (native_queue w q) a.2 a.1);
                      ResolverCall gocl_event_resolve (Some p) (Some e);
                      IdleUnref p].
Proof.
  intros Hv Hd Ha Herr Hne.
  rewrite (run_in_device_run _ _ _ _ _ _ _ _ Hv Hd Ha). cbn zeta.
  rewrite Herr. destruct (decide (err = CL_SUCCESS)) as [|_]; [done|].
  destruct (gocl_event_list_to_array_frame _ _ _ _ Ha) as (msgs & ->).
  eexists _, _, _. split; [reflexivity|]. cbn [objects trace set_trace].
  split; [apply fresh_object_unused|].
  split; [apply lookup_insert_eq|].
  split; [done|]. split; [done|]. split; [|done].
  by rewrite !resolver_calls_app, resolver_calls_criticals, app_nil_r.
Qed.

(** C10: when the submission of an asynchronous run succeeds, the token is
    created carrying its resolver, and the token the run returns has no
    resolver any more; the run invokes no resolver. *)
Theorem run_in_device_success_steals_resolver w self priv device q l a w1 :
  valid_kernel w self priv ->
  valid_device w device (Some q) ->
  gocl_event_list_to_array l w = (a, w1) ->
  (driver (trace w1) (submission priv (native_queue w q) a.2 a.1)).1
  = CL_SUCCESS ->
  exists p tok w',
    gocl_kernel_run_in_device driver gocl_error_get_message
      (Some self) (Some device) l w = (Some p, w')
    /\ objects w !! p = None
    /\ (forall queue event w0 p0 w0',
          g_object_new_GoclEvent queue event w0 = (Some p0, w0') ->
          exists tok0, objects w0' !! p0 = Some (GoclEvent tok0)
                       /\ ev_resolver_func tok0 = Some gocl_event_resolve)
    /\ objects w' !! p = Some (GoclEvent tok)
    /\ ev_resolver_func tok = None
    /\ ev_state tok = Pending
    /\ resolver_calls (trace w') = resolver_calls (trace w).
Proof.
  intros Hv Hd Ha Hok.
  rewrite (run_in_device_run _ _ _ _ _ _ _ _ Hv Hd Ha). cbn zeta.
  rewrite Hok. destruct (decide (CL_SUCCESS = CL_SUCCESS)) as [_|]; [|done].
  destruct (gocl_event_list_to_array_frame _ _ _ _ Ha) as (msgs & ->).
  eexists _, _, _. split; [reflexivity|]. cbn [objects trace set_trace].
  split; [apply fresh_object_unused|]. split.
  { intros queue event w0 p0 w0'. unfold g_object_new_GoclEvent. munfold.
    intros [= <- <-]. eexists. split; [apply lookup_insert_eq | done]. }
  split; [apply lookup_insert_eq|].
  split; [done|]. split; [done|].
  by rewrite !resolver_calls_app, resolver_calls_criticals, !app_nil_r.
Qed.

(** C3, as the code has it: an asynchronous run on a valid Dispatcher and a
    device that has a default queue returns a new token, Pending when the
    submission went through and Resolved-Error with the native code when it
    failed; on a device without a default queue it returns no token. *)
Theorem run_in_device_returns_token_if_queue w self priv device dq l :
  valid_kernel w self priv ->
  valid_device w device dq ->
  let a := (gocl_event_list_to_array l w).1 in
  let w1 := (gocl_event_list_to_array l w).2 in
  let r := gocl_kernel_run_in_device driver gocl_error_get_message
             (Some self) (Some device) l w in
  match dq with
  | Some q =>
      let status :=
        (driver (trace w1) (submission priv (native_queue w q) a.2 a.1)).1 in
      exists p tok,
        r.1 = Some p
        /\ objects w !! p = None
        /\ objects r.2 !! p = Some (GoclEvent tok)
        /\ ev_state tok
           = if decide (status = CL_SUCCESS) then Pending
             else ResolvedError
                    {| code := status;
                       message := gocl_error_get_message status |}
  | None => r.1 = None
  end.
Proof.
  intros Hv Hd. destruct (gocl_event_list_to_array l w) as [a w1] eqn:Ha.
  cbn zeta. cbn [fst snd]. destruct dq as [q|].
  - rewrite (run_in_device_run _ _ _ _ _ _ _ _ Hv Hd Ha). cbn zeta.
    destruct (decide _) as [He|He]; cbn [fst snd objects].
    + eexists _, _. split; [done|]. split; [apply fresh_object_unused|].
      split; [apply lookup_insert_eq|]. done.
    + eexists _, _. split; [done|]. split; [apply fresh_object_unused|].
      split; [apply lookup_insert_eq|]. done.
  - by rewrite (run_in_device_no_queue _ _ _ _ _ _ _ Hv Hd Ha).
Qed.

(** ** Synchronous runs *)

(** What the synchronous run returns on a device with a default queue is
    decided by the submission alone: the answer of the wait primitive is
    not looked at. *)
Lemma run_in_device_sync_flag w self priv device q l a w1 :
  valid_kernel w self priv ->
  valid_device w device (Some q) ->
  gocl_event_list_to_array l w = (a, w1) ->
  (gocl_kernel_run_in_device_sync driver gocl_error_get_message
     (Some self) (Some device) l w).1
  = bool_decide
      ((driver (trace w1)
          (submission priv (native_queue w q) (g_list_length l) a.1)).1
       = CL_SUCCESS).
Proof.
  intros Hv Hd Ha.
  rewrite (run_in_device_sync_run _ _ _ _ _ _ _ _ Hv Hd Ha). cbn zeta.
  destruct (decide _) as [He|He]; cbn [fst].
  - by rewrite bool_decide_eq_true_2.
  - by rewrite bool_decide_eq_false_2.
Qed.

End KernelFacts.

(** * The properties on the mock process *)

Ltac mock_kernel_valid :=
  split; [vm_compute; reflexivity | split; reflexivity].

Ltac mock_device_valid := vm_compute; reflexivity.

Lemma set_work_dimension_contract_witness :
  valid_kernel mock_world 1 mock_kernel
  /\ gocl_kernel_set_work_dimension (Some 1%positive) 4 mock_world
     = (tt, {| objects := objects mock_world;
               trace := [Critical "work_dim > 0 && work_dim <= 3"];
               gocl_error := None |})
  /\ gocl_kernel_set_work_dimension (Some 1%positive) 0 mock_world
     = (tt, {| objects := objects mock_world;
               trace := [Critical "work_dim > 0 && work_dim <= 3"];
               gocl_error := None |})
  /\ gocl_kernel_set_work_dimension (Some 1%positive) 3 mock_world
     = (tt, {| objects :=
                 <[1%positive := GoclKernel
                                   {| kernel := 10; name := "my_kernel";
                                      program := None;
                                      global_work_size := [32; 32; 0];
                                      local_work_size := [2; 2; 0];
                                      work_dim := 3 |}]>
                   (objects mock_world);
               trace := [];
               gocl_error := None |}).
Proof.
  split; [mock_kernel_valid|]. split; [|split].
  - apply (set_work_dimension_contract mock_world 1 mock_kernel 4).
    mock_kernel_valid.
  - apply (set_work_dimension_contract mock_world 1 mock_kernel 0).
    mock_kernel_valid.
  - apply (set_work_dimension_contract mock_world 1 mock_kernel 3).
    mock_kernel_valid.
Defined.

Lemma work_size_setter_last_call_wins_witness :
  valid_kernel mock_world 1 mock_kernel
  /\ valid_device mock_world 2 (Some 3%positive)
  /\ objects
       (gocl_kernel_set_global_work_size (Some 1%positive) 0 8 1
          (gocl_kernel_set_global_work_size (Some 1%positive) 64 64 1
             mock_world).2).2
     = <[1%positive := GoclKernel (set_global [0; 8; 1] mock_kernel)]>
         (objects mock_world)
  /\ objects
       (gocl_kernel_set_local_work_size (Some 1%positive) 4 4 1
          (gocl_kernel_set_local_work_size (Some 1%positive) 8 8 1
             mock_world).2).2
     = <[1%positive := GoclKernel (set_local [4; 4; 1] mock_kernel)]>
         (objects mock_world).
Proof.
  split; [mock_kernel_valid|]. split; [mock_device_valid|]. split.
  - apply (work_size_setter_last_call_wins driver_ok mock_message
             mock_world 1 mock_kernel 2 3 [] 64 64 1 0 8 1);
      [mock_kernel_valid | mock_device_valid].
  - apply (work_size_setter_last_call_wins driver_ok mock_message
             mock_world 1 mock_kernel 2 3 [] 8 8 1 4 4 1);
      [mock_kernel_valid | mock_device_valid].
Defined.

Lemma run_global_size_absent_when_zero_witness :
  valid_kernel mock_world 1 mock_kernel
  /\ valid_device mock_world 2 (Some 3%positive)
  /\ exists first,
       global_work_size mock_kernel !! 0%nat = Some first
       /\ enqueue_calls
            (trace (gocl_kernel_run_in_device_sync driver_ok mock_message
                      (Some 1%positive) (Some 2%positive) [] mock_world).2)
          = [clEnqueueNDRangeKernel 99 10 2 None
               (if decide (first = 0) then None else Some [32; 32; 0])
               (Some [2; 2; 0]) 0 None]
       /\ enqueue_calls
            (trace (gocl_kernel_run_in_device driver_ok mock_message
                      (Some 1%positive) (Some 2%positive) [] mock_world).2)
          = [clEnqueueNDRangeKernel 99 10 2 None
               (if decide (first = 0) then None else Some [32; 32; 0])
               (Some [2; 2; 0]) 0 None].
Proof.
  split; [mock_kernel_valid|]. split; [mock_device_valid|].
  apply (run_global_size_absent_when_zero driver_ok mock_message
           mock_world 1 mock_kernel 2 3 []);
    [mock_kernel_valid | mock_device_valid].
Defined.

Lemma run_empty_wait_list_not_gated_witness :
  valid_kernel mock_world 1 mock_kernel
  /\ valid_device mock_world 2 (Some 3%positive)
  /\ enqueue_calls
       (trace (gocl_kernel_run_in_device_sync driver_ok mock_message
                 (Some 1%positive) (Some 2%positive) [] mock_world).2)
     = [clEnqueueNDRangeKernel 99 10 2 None (Some [32; 32; 0])
          (Some [2; 2; 0]) 0 None]
  /\ enqueue_calls
       (trace (gocl_kernel_run_in_device driver_ok mock_message
                 (Some 1%positive) (Some 2%positive) [] mock_world).2)
     = [clEnqueueNDRangeKernel 99 10 2 None (Some [32; 32; 0])
          (Some [2; 2; 0]) 0 None].
Proof.
  split; [mock_kernel_valid|]. split; [mock_device_valid|].
  apply (run_empty_wait_list_not_gated driver_ok mock_message
           mock_world 1 mock_kernel 2 3);
    [mock_kernel_valid | mock_device_valid].
Defined.

Lemma set_argument_int32_size_witness :
  valid_kernel mock_world 1 mock_kernel
  /\ 0 <= 1024
  /\ 1024 * sizeof_cl_uint <= G_MAXSIZE
  /\ trace (gocl_kernel_set_argument_int32 driver_ok mock_message
              (Some 1%positive) 1 1024 4096 mock_world).2
     = [Native (clSetKernelArg 10 1 4096 (ArgHost 4096))].
Proof.
  split; [mock_kernel_valid|]. split; [lia|].
  split; [vm_compute; discriminate|].
  apply (set_argument_int32_size driver_ok mock_message
           mock_world 1 mock_kernel 1 1024 4096);
    [mock_kernel_valid | lia | vm_compute; discriminate].
Defined.

Lemma new_kernel_defaults_witness :
  g_initable_new_GoclKernel driver_ok mock_message None "my_kernel" mock_world
  = ((Some 5%positive, None),
     (g_initable_new_GoclKernel driver_ok mock_message None "my_kernel"
        mock_world).2)
  /\ exists priv,
       valid_kernel
         (g_initable_new_GoclKernel driver_ok mock_message None "my_kernel"
            mock_world).2 5 priv
       /\ objects mock_world !! 5%positive = None
       /\ work_dim priv = 1
       /\ global_work_size priv = [0; 0; 0]
       /\ local_work_size priv = [0; 0; 0].
Proof.
  assert (H : g_initable_new_GoclKernel driver_ok mock_message None
                "my_kernel" mock_world
              = ((Some 5%positive, None),
                 (g_initable_new_GoclKernel driver_ok mock_message None
                    "my_kernel" mock_world).2)).
  { vm_compute. reflexivity. }
  split; [exact H|].
  exact (new_kernel_defaults driver_ok mock_message mock_world None
           "my_kernel" 5 None _ H).
Defined.

Lemma run_in_device_submission_error_witness :
  valid_kernel mock_world 1 mock_kernel
  /\ valid_device mock_world 2 (Some 3%positive)
  /\ gocl_event_list_to_array [] mock_world = ((None, 0), mock_world)
  /\ (driver_submit_fails (trace mock_world)
        (submission mock_kernel (native_queue mock_world 3) 0 None)).1 = 5
  /\ 5 <> CL_SUCCESS
  /\ exists p tok w',
       gocl_kernel_run_in_device driver_submit_fails mock_message
         (Some 1%positive) (Some 2%positive) [] mock_world = (Some p, w')
       /\ objects mock_world !! p = None
       /\ objects w' !! p = Some (GoclEvent tok)
       /\ ev_state tok
          = ResolvedError {| code := 5; message := mock_message 5 |}
       /\ ev_resolver_func tok = None
       /\ resolver_calls (trace w')
          = [(Some p, Some {| code := 5; message := mock_message 5 |})]
       /\ trace w'
          = [Native (submission mock_kernel (native_queue mock_world 3) 0 None);
             ResolverCall gocl_event_resolve (Some p)
               (Some {| code := 5; message := mock_message 5 |});
             IdleUnref p].
Proof.
  split; [mock_kernel_valid|]. split; [mock_device_valid|].
  split; [reflexivity|]. split; [reflexivity|]. split; [discriminate|].
  apply (run_in_device_submission_error driver_submit_fails mock_message
           mock_world 1 mock_kernel 2 3 [] (None, 0) mock_world 5);
    [mock_kernel_valid | mock_device_valid | reflexivity | reflexivity
    | discriminate].
Defined.

Lemma run_in_device_success_steals_resolver_witness :
  valid_kernel mock_world 1 mock_kernel
  /\ valid_device mock_world 2 (Some 3%positive)
  /\ gocl_event_list_to_array [] mock_world = ((None, 0), mock_world)
  /\ (driver_ok (trace mock_world)
        (submission mock_kernel (native_queue mock_world 3) 0 None)).1
     = CL_SUCCESS
  /\ exists p tok w',
       gocl_kernel_run_in_device driver_ok mock_message
         (Some 1%positive) (Some 2%positive) [] mock_world = (Some p, w')
       /\ objects w' !! p = Some (GoclEvent tok)
       /\ ev_resolver_func tok = None
       /\ resolver_calls (trace w') = [].
Proof.
  split; [mock_kernel_valid|]. split; [mock_device_valid|].
  split; [reflexivity|]. split; [reflexivity|].
  destruct (run_in_device_success_steals_resolver driver_ok mock_message
              mock_world 1 mock_kernel 2 3 [] (None, 0) mock_world)
    as (p & tok & w' & Hrun & _ & _ & Htok & Hres & _ & Hcalls);
    [mock_kernel_valid | mock_device_valid | reflexivity | reflexivity |].
  exists p, tok, w'. repeat split; assumption.
Defined.

Lemma run_in_device_returns_token_if_queue_witness :
  valid_kernel mock_world 1 mock_kernel
  /\ valid_device mock_world 2 (Some 3%positive)
  /\ exists p tok,
       (gocl_kernel_run_in_device driver_submit_fails mock_message
          (Some 1%positive) (Some 2%positive) [] mock_world).1 = Some p
       /\ objects mock_world !! p = None
       /\ objects
            (gocl_kernel_run_in_device driver_submit_fails mock_message
               (Some 1%positive) (Some 2%positive) [] mock_world).2 !! p
          = Some (GoclEvent tok)
       /\ ev_state tok
          = ResolvedError {| code := 5; message := mock_message 5 |}.
Proof.
  split; [mock_kernel_valid|]. split; [mock_device_valid|].
  apply (run_in_device_returns_token_if_queue driver_submit_fails
           mock_message mock_world 1 mock_kernel 2 (Some 3%positive) []);
    [mock_kernel_valid | mock_device_valid].
Defined.

(** C8 does not hold of every element count: for [N = 2 ^ 62] the product
    wraps, and the size handed to the native primitive is 0, not [N] times
    the size of a native 32-bit integer. *)
Lemma set_argument_int32_size_overflow :
  valid_kernel mock_world 1 mock_kernel
  /\ trace (gocl_kernel_set_argument_int32 driver_ok mock_message
              (Some 1%positive) 1 (2 ^ 62) 4096 mock_world).2
     = [Native (clSetKernelArg 10 1 0 (ArgHost 4096))]
  /\ 2 ^ 62 * sizeof_cl_uint <> 0
  /\ ~ (forall driver message w self priv index N buffer,
          valid_kernel w self priv ->
          0 <= N <= G_MAXSIZE ->
          trace (gocl_kernel_set_argument_int32 driver message
                   (Some self) index N buffer w).2
          = trace w
              ++ [Native (clSetKernelArg (kernel priv) index
                            (N * sizeof_cl_uint) (ArgHost buffer))]).
Proof.
  split; [mock_kernel_valid|]. split; [vm_compute; reflexivity|].
  split; [vm_compute; discriminate|].
  intros H.
  specialize (H driver_ok mock_message mock_world 1%positive mock_kernel
                1 (2 ^ 62) 4096).
  assert (Hv : valid_kernel mock_world 1 mock_kernel) by mock_kernel_valid.
  assert (Hr : 0 <= 2 ^ 62 <= G_MAXSIZE) by (vm_compute; split; discriminate).
  specialize (H Hv Hr). vm_compute in H. discriminate H.
Qed.

(** C3 does not hold of every device: on a valid Dispatcher and a valid
    device that has no default queue the asynchronous run returns [NULL],
    not a token. *)
Lemma run_in_device_without_queue_returns_null :
  valid_kernel mock_world 1 mock_kernel
  /\ valid_device mock_world 4 None
  /\ (gocl_kernel_run_in_device driver_ok mock_message
        (Some 1%positive) (Some 4%positive) [] mock_world).1 = None
  /\ ~ (forall driver message w self priv device dq l,
          valid_kernel w self priv ->
          valid_device w device dq ->
          exists p,
            (gocl_kernel_run_in_device driver message
               (Some self) (Some device) l w).1 = Some p).
Proof.
  split; [mock_kernel_valid|]. split; [mock_device_valid|].
  split; [vm_compute; reflexivity|].
  intros H.
  destruct (H driver_ok mock_message mock_world 1%positive mock_kernel
              4%positive None []) as [p Hp];
    [mock_kernel_valid | mock_device_valid |].
  vm_compute in Hp. discriminate Hp.
Qed.

(** C2: the synchronous run does not look at the answer of the wait
    primitive.  On a driver whose submission succeeds and whose wait fails
    with code -14, the run waits, releases the handle and returns [TRUE],
    where the specification has it return failure. *)
Theorem run_in_device_sync_ignores_wait_failure :
  (driver_wait_fails
     [Native (clEnqueueNDRangeKernel 99 10 2 None (Some [32; 32; 0])
                (Some [2; 2; 0]) 0 None)]
     (clWaitForEvents 1 [77])).1 = -14
  /\ (gocl_kernel_run_in_device_sync driver_wait_fails mock_message
        (Some 1%positive) (Some 2%positive) [] mock_world).1 = true
  /\ trace (gocl_kernel_run_in_device_sync driver_wait_fails mock_message
              (Some 1%positive) (Some 2%positive) [] mock_world).2
     = [Native (clEnqueueNDRangeKernel 99 10 2 None (Some [32; 32; 0])
                  (Some [2; 2; 0]) 0 None);
        Native (clWaitForEvents 1 [77]);
        Native (clReleaseEvent 77)].
Proof. split; [reflexivity|]. split; vm_compute; reflexivity. Qed.

(** * Beyond the dispatch paths: the rest of [gocl-kernel.c] *)

Section KernelUse.

Variable driver : list Effect -> NativeCall -> cl_int * cl_handle.
Variable gocl_error_get_message : cl_int -> string.

Lemma invalid_kernel_check w self :
  invalid_kernel w self -> GOCL_IS_KERNEL self w = (None, w).
Proof.
  unfold invalid_kernel. munfold. destruct self as [p|]; [|done].
  by destruct (objects w !! p) as [[]|].
Qed.

Lemma invalid_device_check w device :
  invalid_device w device -> GOCL_IS_DEVICE device w = (false, w).
Proof.
  unfold invalid_device. munfold. destruct device as [p|]; [|done].
  by destruct (objects w !! p) as [[]|].
Qed.

Lemma valid_kernel_check w self priv :
  objects w !! self = Some (GoclKernel priv) ->
  GOCL_IS_KERNEL (Some self) w = (Some priv, w).
Proof. intros H. munfold. by rewrite H. Qed.

Ltac reject_kernel H :=
  unfold mbind at 1, M_bind at 1;
  rewrite (invalid_kernel_check _ _ H); reflexivity.

(** ** Usage errors *)

(** X1: a [NULL] handle, or a handle to an instance of another class, is
    rejected by every public function: one failed check is reported, the
    driver is not called, the store and the error slot stay as they were,
    and the function returns its failure value. *)
Theorem invalid_kernel_rejected w self :
  not_a_kernel w self ->
  let w' := with_critical "GOCL_IS_KERNEL (self)" w in
  gocl_kernel_get_kernel self w = (0, w')
  /\ (forall index size buffer,
        gocl_kernel_set_argument driver gocl_error_get_message
          self index size buffer w = (false, w'))
  /\ (forall index n buffer,
        gocl_kernel_set_argument_int32 driver gocl_error_get_message
          self index n buffer w = (false, w'))
  /\ (forall index n buffer,
        gocl_kernel_set_argument_float driver gocl_error_get_message
          self index n buffer w = (false, w'))
  /\ (forall index buffer,
        gocl_kernel_set_argument_buffer driver gocl_error_get_message
          self index buffer w = (false, w'))
  /\ (forall device l,
        gocl_kernel_run_in_device_sync driver gocl_error_get_message
          self device l w = (false, w'))
  /\ (forall device l,
        gocl_kernel_run_in_device driver gocl_error_get_message
          self device l w = (None, w'))
  /\ (forall work_dim, gocl_kernel_set_work_dimension self work_dim w = (tt, w'))
  /\ (forall s1 s2 s3,
        gocl_kernel_set_global_work_size self s1 s2 s3 w = (tt, w'))
  /\ (forall s1 s2 s3,
        gocl_kernel_set_local_work_size self s1 s2 s3 w = (tt, w')).
Proof.
  intros Hn. cbn zeta.
  assert (H : invalid_kernel w self).
  { unfold not_a_kernel, invalid_kernel in *. destruct self as [p|]; [|done].
    by destruct (objects w !! p) as [[]|]. }
  repeat split; intros;
    unfold gocl_kernel_get_kernel, gocl_kernel_set_argument_int32,
      gocl_kernel_set_argument_float, gocl_kernel_set_argument,
      gocl_kernel_set_argument_buffer, gocl_kernel_run_in_device_sync,
      gocl_kernel_run_in_device, gocl_kernel_set_work_dimension,
      gocl_kernel_set_global_work_size, gocl_kernel_set_local_work_size;
    reject_kernel H.
Qed.

Lemma run_in_device_sync_bad_device w self priv device l :
  objects w !! self = Some (GoclKernel priv) ->
  invalid_device w device ->
  gocl_kernel_run_in_device_sync driver gocl_error_get_message
    (Some self) device l w
  = (false, with_critical "GOCL_IS_DEVICE (device)" w).
Proof.
  intros Hk Hd. unfold gocl_kernel_run_in_device_sync.
  unfold mbind at 1, M_bind at 1. rewrite (valid_kernel_check _ _ _ Hk).
  unfold mbind at 1, M_bind at 1. by rewrite (invalid_device_check _ _ Hd).
Qed.

Lemma run_in_device_bad_device w self priv device l :
  objects w !! self = Some (GoclKernel priv) ->
  invalid_device w device ->
  gocl_kernel_run_in_device driver gocl_error_get_message
    (Some self) device l w
  = (None, with_critical "GOCL_IS_DEVICE (device)" w).
Proof.
  intros Hk Hd. unfold gocl_kernel_run_in_device.
  unfold mbind at 1, M_bind at 1. rewrite (valid_kernel_check _ _ _ Hk).
  unfold mbind at 1, M_bind at 1. by rewrite (invalid_device_check _ _ Hd).
Qed.

(** X2: a valid kernel run on a handle that is not a device is rejected the same
    way, in both modes, before the dependency list is looked at. *)
Theorem invalid_device_rejected w self priv device l :
  valid_kernel w self priv ->
  invalid_device w device ->
  let w' := with_critical "GOCL_IS_DEVICE (device)" w in
  gocl_kernel_run_in_device_sync driver gocl_error_get_message
    (Some self) device l w = (false, w')
  /\ gocl_kernel_run_in_device driver gocl_error_get_message
       (Some self) device l w = (None, w').
Proof.
  intros (Hk & _) Hd. cbn zeta. split.
  - by apply (run_in_device_sync_bad_device _ _ priv).
  - by apply (run_in_device_bad_device _ _ priv).
Qed.

(** ** Argument binding *)

Lemma set_argument_run w self priv index size buffer :
  objects w !! self = Some (GoclKernel priv) ->
  gocl_kernel_set_argument driver gocl_error_get_message
    (Some self) index size buffer w
  = let c := clSetKernelArg (kernel priv) index size (ArgHost buffer) in
    let status := (driver (trace w) c).1 in
    (bool_decide (status = CL_SUCCESS),
     {| objects := objects w;
        trace := trace w ++ [Native c];
        gocl_error :=
          if decide (status = CL_SUCCESS) then gocl_error w
          else Some (native_error gocl_error_get_message status) |}).
Proof.
  intros Hk.
  unfold gocl_kernel_set_argument, cl_call, gocl_error_check_opencl_internal,
    gocl_error_check_opencl, native_error.
  munfold. rewrite Hk. mcbn. cbn zeta.
  destruct (decide _) as [He|He]; mcbn.
  - by rewrite bool_decide_eq_true_2.
  - by rewrite bool_decide_eq_false_2.
Qed.

(** X3: binding an argument on a valid kernel is one call of the native
    primitive, on the kernel's native handle, with the caller's index, size
    and pointer passed through untouched.  The result is [TRUE] exactly when
    the driver answers [CL_SUCCESS]; a failure leaves the native code in the
    out-of-band error, a success leaves that error as it was; the store is
    not touched either way. *)
Theorem set_argument_outcome w self priv index size buffer :
  valid_kernel w self priv ->
  let c := clSetKernelArg (kernel priv) index size (ArgHost buffer) in
  let status := (driver (trace w) c).1 in
  let r := gocl_kernel_set_argument driver gocl_error_get_message
             (Some self) index size buffer w in
  (r.1 = true <-> status = CL_SUCCESS)
  /\ objects r.2 = objects w
  /\ trace r.2 = trace w ++ [Native c]
  /\ (status = CL_SUCCESS -> gocl_error r.2 = gocl_error w)
  /\ (status <> CL_SUCCESS ->
      gocl_error r.2
      = Some {| code := status; message := gocl_error_get_message status |}).
Proof.
  intros (Hk & _). cbn zeta. rewrite (set_argument_run _ _ _ _ _ _ Hk).
  cbn zeta. cbn [fst snd objects trace gocl_error].
  split; [apply bool_decide_eq_true|].
  split; [done|]. split; [done|].
  split; intros H; destruct (decide _); done.
Qed.

(** X4: binding a float array hands over [sizeof (cl_float) * num_elements]
    computed in [gsize]: the product modulo [2 ^ 64], which is the byte size
    of the array whenever that size is a [gsize]. *)
Theorem set_argument_float_size w self priv (index N buffer : Z) :
  valid_kernel w self priv ->
  exists size,
    trace (gocl_kernel_set_argument_float driver gocl_error_get_message
             (Some self) index N buffer w).2
    = trace w ++ [Native (clSetKernelArg (kernel priv) index size
                            (ArgHost buffer))]
    /\ size = (N * sizeof_cl_float) mod 2 ^ 64
    /\ (0 <= N -> N * sizeof_cl_float <= G_MAXSIZE ->
        size = N * sizeof_cl_float).
Proof.
  intros (Hk & _). unfold gocl_kernel_set_argument_float.
  rewrite (set_argument_run _ _ _ _ _ _ Hk). cbn zeta. cbn [snd trace].
  eexists. split; [reflexivity|]. unfold to_gsize.
  rewrite (Z.mul_comm sizeof_cl_float N). split; [done|].
  intros H0 Hmax. apply Z.mod_small.
  unfold G_MAXSIZE, sizeof_cl_float in *. lia.
Qed.

(** X5: binding a buffer object hands over the native memory handle of the
    buffer, with the size of one such handle, on the kernel's native handle;
    the result is [TRUE] exactly when the driver answers [CL_SUCCESS], and
    the store is not touched. *)
Theorem set_argument_buffer_outcome w self priv index buffer mem :
  valid_kernel w self priv ->
  objects w !! buffer = Some (GoclBuffer mem) ->
  let c := clSetKernelArg (kernel priv) index sizeof_cl_mem (ArgMem mem) in
  let r := gocl_kernel_set_argument_buffer driver gocl_error_get_message
             (Some self) index (Some buffer) w in
  (r.1 = true <-> (driver (trace w) c).1 = CL_SUCCESS)
  /\ objects r.2 = objects w
  /\ trace r.2 = trace w ++ [Native c].
Proof.
  intros (Hk & _) Hb. cbn zeta.
  unfold gocl_kernel_set_argument_buffer, gocl_buffer_get_buffer, cl_call,
    gocl_error_check_opencl_internal, gocl_error_check_opencl.
  munfold. rewrite Hk, Hb. mcbn.
  destruct (decide _) as [He|He]; mcbn; repeat split; done.
Qed.

(** ** Runs *)

Lemma native_calls_app (t1 t2 : list Effect) :
  native_calls (t1 ++ t2) = native_calls t1 ++ native_calls t2.
Proof. apply omap_app. Qed.

Lemma native_calls_criticals (msgs : list string) :
  native_calls (map Critical msgs) = [].
Proof. induction msgs as [|m msgs IH]; [done | exact IH]. Qed.

Lemma device_cases w (device : option ptr) :
  invalid_device w device
  \/ exists p dq, device = Some p /\ valid_device w p dq.
Proof.
  unfold invalid_device, valid_device. destruct device as [p|]; [|by left].
  destruct (objects w !! p) as [[| dq | | | |]|] eqn:H; try by left.
  right. by exists p, dq.
Qed.

(** X6: on a device without a default queue neither mode reaches the driver or
    records an error detail.  The synchronous run returns [FALSE] and leaves
    the whole process state as it was, dependency list unread; the
    asynchronous run returns [NULL] and leaves the store as it was. *)
Theorem run_without_queue w self priv device l :
  valid_kernel w self priv ->
  valid_device w device None ->
  gocl_kernel_run_in_device_sync driver gocl_error_get_message
    (Some self) (Some device) l w = (false, w)
  /\ (let r := gocl_kernel_run_in_device driver gocl_error_get_message
                 (Some self) (Some device) l w in
      r.1 = None
      /\ objects r.2 = objects w
      /\ gocl_error r.2 = gocl_error w
      /\ native_calls (trace r.2) = native_calls (trace w)).
Proof.
  intros Hv Hd. split.
  - by apply (run_in_device_sync_no_queue driver gocl_error_get_message
                _ _ priv).
  - destruct (gocl_event_list_to_array l w) as [a w1] eqn:Ha. cbn zeta.
    rewrite (run_in_device_no_queue driver gocl_error_get_message
               _ _ _ _ _ _ _ Hv Hd Ha).
    destruct (gocl_event_list_to_array_frame _ _ _ _ Ha) as (msgs & ->).
    cbn [fst snd objects gocl_error trace set_trace]. repeat split.
    by rewrite !native_calls_app, native_calls_criticals, !app_nil_r.
Qed.

(** X7: when the submission of a synchronous run fails, the run returns [FALSE],
    the submission is the only call it made to the driver (it neither waits
    nor releases anything), the native code is left in the out-of-band
    error, and the store is as it was. *)
Theorem run_in_device_sync_submission_failure w self priv device q l a w1 :
  valid_kernel w self priv ->
  valid_device w device (Some q) ->
  gocl_event_list_to_array l w = (a, w1) ->
  let c := submission priv (native_queue w q) (g_list_length l) a.1 in
  let status := (driver (trace w1) c).1 in
  status <> CL_SUCCESS ->
  let r := gocl_kernel_run_in_device_sync driver gocl_error_get_message
             (Some self) (Some device) l w in
  r.1 = false
  /\ native_calls (trace r.2) = native_calls (trace w) ++ [c]
  /\ gocl_error r.2
     = Some {| code := status; message := gocl_error_get_message status |}
  /\ objects r.2 = objects w.
Proof.
  intros Hv Hd Ha. cbn zeta. intros Hne.
  rewrite (run_in_device_sync_run driver gocl_error_get_message
             _ _ _ _ _ _ _ _ Hv Hd Ha). cbn zeta.
  destruct (decide _) as [He|_]; [done|].
  destruct (gocl_event_list_to_array_frame _ _ _ _ Ha) as (msgs & ->).
  cbn [fst snd objects gocl_error trace set_trace]. repeat split.
  by rewrite !native_calls_app, native_calls_criticals, !app_nil_r.
Qed.

(** X8: when the submission of a synchronous run succeeds, the run waits for
    exactly the event the submission produced, then releases that same
    event, then returns [TRUE]; the store and the out-of-band error are as
    they were. *)
Theorem run_in_device_sync_waits_then_releases w self priv device q l a w1 :
  valid_kernel w self priv ->
  valid_device w device (Some q) ->
  gocl_event_list_to_array l w = (a, w1) ->
  let c := submission priv (native_queue w q) (g_list_length l) a.1 in
  (driver (trace w1) c).1 = CL_SUCCESS ->
  let event := (driver (trace w1) c).2 in
  let r := gocl_kernel_run_in_device_sync driver gocl_error_get_message
             (Some self) (Some device) l w in
  r.1 = true
  /\ trace r.2
     = trace w1 ++ [Native c;
                    Native (clWaitForEvents 1 [event]);
                    Native (clReleaseEvent event)]
  /\ gocl_error r.2 = gocl_error w
  /\ objects r.2 = objects w.
Proof.
  intros Hv Hd Ha. cbn zeta. intros Hok.
  rewrite (run_in_device_sync_run driver gocl_error_get_message
             _ _ _ _ _ _ _ _ Hv Hd Ha). cbn zeta.
  destruct (decide _) as [_|Hne]; [|done].
  by cbn [fst snd objects gocl_error trace].
Qed.

(** X9: the asynchronous run never blocks: whatever the device and whatever the
    outcome of the submission, the only call it can make to the driver is
    the submission itself; it never waits for an event and never releases
    one. *)
Theorem run_in_device_never_waits w self priv device dq l :
  valid_kernel w self priv ->
  valid_device w device dq ->
  let a := (gocl_event_list_to_array l w).1 in
  native_calls
    (trace (gocl_kernel_run_in_device driver gocl_error_get_message
              (Some self) (Some device) l w).2)
  = native_calls (trace w)
      ++ match dq with
         | Some q => [submission priv (native_queue w q) a.2 a.1]
         | None => []
         end.
Proof.
  intros Hv Hd. destruct (gocl_event_list_to_array l w) as [a w1] eqn:Ha.
  cbn zeta. cbn [fst].
  destruct (gocl_event_list_to_array_frame _ _ _ _ Ha) as (msgs & Hw1).
  destruct dq as [q|].
  - rewrite (run_in_device_run driver gocl_error_get_message
               _ _ _ _ _ _ _ _ Hv Hd Ha). cbn zeta. subst w1.
    destruct (decide _); cbn [snd trace set_trace];
      by rewrite !native_calls_app, native_calls_criticals, !app_nil_r.
  - rewrite (run_in_device_no_queue driver gocl_error_get_message
               _ _ _ _ _ _ _ Hv Hd Ha). subst w1.
    cbn [snd trace set_trace].
    by rewrite !native_calls_app, native_calls_criticals, !app_nil_r.
Qed.

(** X10: the local size of a submission is decided by slot 0 of the local vector
    alone, in both modes: [NULL] when that slot is 0, whatever the other two
    slots and the global vector hold, and the stored three-slot vector
    otherwise. *)
Theorem run_local_size_absent_when_zero w self priv device q l :
  valid_kernel w self priv ->
  valid_device w device (Some q) ->
  let a := (gocl_event_list_to_array l w).1 in
  exists first,
    local_work_size priv !! 0%nat = Some first
    /\ enqueue_calls
         (trace (gocl_kernel_run_in_device_sync driver
                   gocl_error_get_message (Some self) (Some device) l w).2)
       = enqueue_calls (trace w)
           ++ [clEnqueueNDRangeKernel (native_queue w q) (kernel priv)
                 (work_dim priv) None
                 (work_size_arg (global_work_size priv))
                 (if decide (first = 0) then None
                  else Some (local_work_size priv))
                 (g_list_length l) a.1]
    /\ enqueue_calls
         (trace (gocl_kernel_run_in_device driver
                   gocl_error_get_message (Some self) (Some device) l w).2)
       = enqueue_calls (trace w)
           ++ [clEnqueueNDRangeKernel (native_queue w q) (kernel priv)
                 (work_dim priv) None
                 (work_size_arg (global_work_size priv))
                 (if decide (first = 0) then None
                  else Some (local_work_size priv))
                 a.2 a.1].
Proof.
  intros Hv Hd. pose proof Hv as (Hk & Hg & Hl).
  destruct (WorkSize_first _ Hl) as [first Hfirst].
  destruct (gocl_event_list_to_array l w) as [a w1] eqn:Ha.
  cbn zeta. cbn [fst]. exists first. split; [done|]. split.
  - rewrite (run_in_device_sync_submits driver gocl_error_get_message
               _ _ _ _ _ _ _ _ Hv Hd Ha).
    unfold submission. by rewrite (work_size_arg_first _ _ Hfirst).
  - rewrite (run_in_device_submits driver gocl_error_get_message
               _ _ _ _ _ _ _ _ Hv Hd Ha).
    unfold submission. by rewrite (work_size_arg_first _ _ Hfirst).
Qed.

(** X11: what the token of an asynchronous run holds.  After a successful
    submission it is bound to the default queue of the device, carries the
    native event the submission produced and keeps the caller's dependency
    list; the token made for a failed submission is bound to the queue but
    carries no native event and keeps no dependency list.  Either way the
    token is handed to one deferred unref, the last thing the run does. *)
Theorem run_in_device_token_contents w self priv device q l a w1 :
  valid_kernel w self priv ->
  valid_device w device (Some q) ->
  gocl_event_list_to_array l w = (a, w1) ->
  let c := submission priv (native_queue w q) a.2 a.1 in
  let r := gocl_kernel_run_in_device driver gocl_error_get_message
             (Some self) (Some device) l w in
  exists p tok pre,
    r.1 = Some p
    /\ objects r.2 !! p = Some (GoclEvent tok)
    /\ ev_queue tok = Some q
    /\ trace r.2 = pre ++ [IdleUnref p]
    /\ (forall e, IdleUnref e ∈ pre -> IdleUnref e ∈ trace w)
    /\ if decide ((driver (trace w1) c).1 = CL_SUCCESS)
       then ev_event tok = (driver (trace w1) c).2
            /\ ev_event_wait_list tok = l
       else ev_event tok = 0 /\ ev_event_wait_list tok = [].
Proof.
  intros Hv Hd Ha. cbn zeta.
  rewrite (run_in_device_run driver gocl_error_get_message
             _ _ _ _ _ _ _ _ Hv Hd Ha). cbn zeta.
  destruct (gocl_event_list_to_array_frame _ _ _ _ Ha) as (msgs & ->).
  assert (Hpre : forall e t,
             IdleUnref e ∈ (trace w ++ map Critical msgs) ++ t ->
             (forall x, x ∈ t -> x <> IdleUnref e) ->
             IdleUnref e ∈ trace w).
  { intros e t Hin Ht.
    apply elem_of_app in Hin as [Hin|Hin]; [|by destruct (Ht _ Hin)].
    apply elem_of_app in Hin as [Hin|Hin]; [done|].
    apply list_elem_of_fmap in Hin as (m & Hm & _). discriminate Hm. }
  destruct (decide _) as [He|He]; cbn [fst snd objects trace set_trace].
  - eexists _, _, ((trace w ++ map Critical msgs) ++ [Native _]).
    split; [done|].
    split; [apply lookup_insert_eq|]. split; [done|].
    split; [by rewrite <- (app_assoc _ [_] [_])|]. split; [|done].
    intros e Hin. apply (Hpre e _ Hin).
    intros x Hx. apply list_elem_of_singleton in Hx. by subst x.
  - eexists _, _, ((trace w ++ map Critical msgs) ++ [Native _; ResolverCall _ _ _]).
    split; [done|].
    split; [apply lookup_insert_eq|]. split; [done|].
    split; [by rewrite <- (app_assoc _ [_; _] [_])|]. split; [|done].
    intros e Hin. apply (Hpre e _ Hin).
    intros x Hx. apply elem_of_cons in Hx as [->|Hx]; [done|].
    apply list_elem_of_singleton in Hx. by subst x.
Qed.

(** ** What the calls keep *)

Lemma set_work_dimension_accepts w self priv dim :
  objects w !! self = Some (GoclKernel priv) ->
  1 <= dim <= 3 ->
  gocl_kernel_set_work_dimension (Some self) dim w
  = (tt, set_objects
           (<[self := GoclKernel (set_work_dim dim priv)]> (objects w)) w).
Proof.
  intros Hk Hin. unfold gocl_kernel_set_work_dimension. munfold. rewrite Hk.
  replace (0 <? dim) with true by (symmetry; apply Z.ltb_lt; lia).
  replace (dim <=? 3) with true by (symmetry; apply Z.leb_le; lia).
  cbn [andb negb]. by rewrite Hk.
Qed.

Lemma set_work_dimension_rejects w self priv dim :
  objects w !! self = Some (GoclKernel priv) ->
  ~ 1 <= dim <= 3 ->
  gocl_kernel_set_work_dimension (Some self) dim w
  = (tt, with_critical "work_dim > 0 && work_dim <= 3" w).
Proof.
  intros Hk Hout. unfold gocl_kernel_set_work_dimension. munfold. rewrite Hk.
  destruct (0 <? dim) eqn:Hlo; destruct (dim <=? 3) eqn:Hhi;
    cbn [andb negb]; try done.
  apply Z.ltb_lt in Hlo. apply Z.leb_le in Hhi. lia.
Qed.

Lemma run_in_device_sync_frame w self priv device l :
  valid_kernel w self priv ->
  objects (gocl_kernel_run_in_device_sync driver gocl_error_get_message
             (Some self) device l w).2 = objects w.
Proof.
  intros Hv. destruct (device_cases w device) as [Hd|(p & dq & -> & Hd)].
  - by rewrite (run_in_device_sync_bad_device _ _ priv _ l (proj1 Hv) Hd).
  - destruct dq as [q|].
    + destruct (gocl_event_list_to_array l w) as [a w1] eqn:Ha.
      rewrite (run_in_device_sync_run driver gocl_error_get_message
                 _ _ _ _ _ _ _ _ Hv Hd Ha). cbn zeta.
      by destruct (decide _).
    + by rewrite (run_in_device_sync_no_queue driver gocl_error_get_message
                    _ _ priv).
Qed.

Lemma run_in_device_frame w self priv device l p o :
  valid_kernel w self priv ->
  objects w !! p = Some o ->
  objects (gocl_kernel_run_in_device driver gocl_error_get_message
             (Some self) device l w).2 !! p = Some o.
Proof.
  intros Hv Hp. destruct (device_cases w device) as [Hd|(d & dq & -> & Hd)].
  - by rewrite (run_in_device_bad_device _ _ priv _ l (proj1 Hv) Hd).
  - destruct (gocl_event_list_to_array l w) as [a w1] eqn:Ha.
    destruct (gocl_event_list_to_array_frame _ _ _ _ Ha) as (msgs & Hw1).
    destruct dq as [q|].
    + rewrite (run_in_device_run driver gocl_error_get_message
                 _ _ _ _ _ _ _ _ Hv Hd Ha). cbn zeta.
      assert (Hne : fresh (dom (objects w)) <> p).
      { intros <-. by rewrite fresh_object_unused in Hp. }
      destruct (decide _); cbn [snd objects]; by rewrite lookup_insert_ne.
    + rewrite (run_in_device_no_queue driver gocl_error_get_message
                 _ _ _ _ _ _ _ Hv Hd Ha). by subst w1.
Qed.

Lemma size_arg_ok_work_size_arg (ws : list Z) :
  length ws = 3%nat -> size_arg_ok (work_size_arg ws).
Proof.
  destruct ws as [|s1 [|s2 [|s3 [|? ?]]]]; try done. intros _.
  unfold work_size_arg, size_arg_ok. cbn.
  destruct (decide (s1 = 0)); [by left | right; by exists s1, s2, s3].
Qed.

Lemma submission_ok priv q n arr :
  kernel_configured priv ->
  native_call_ok (kernel priv) (submission priv q n arr).
Proof.
  intros (Hdim & Hg & Hl). cbn. repeat split; try done; try lia;
    by apply size_arg_ok_work_size_arg.
Qed.

Lemma run_in_device_sync_grows w self priv device l :
  valid_kernel w self priv ->
  kernel_configured priv ->
  exists t,
    trace (gocl_kernel_run_in_device_sync driver gocl_error_get_message
             (Some self) device l w).2 = trace w ++ t
    /\ Forall (native_call_ok (kernel priv)) (native_calls t).
Proof.
  intros Hv Hc. destruct (device_cases w device) as [Hd|(d & dq & -> & Hd)].
  - rewrite (run_in_device_sync_bad_device _ _ priv _ l (proj1 Hv) Hd).
    eexists. split; [reflexivity|]. by cbn.
  - destruct dq as [q|].
    + destruct (gocl_event_list_to_array l w) as [a w1] eqn:Ha.
      destruct (gocl_event_list_to_array_frame _ _ _ _ Ha) as (msgs & Hw1).
      rewrite (run_in_device_sync_run driver gocl_error_get_message
                 _ _ _ _ _ _ _ _ Hv Hd Ha). cbn zeta. subst w1.
      destruct (decide _); cbn [snd trace set_trace];
        rewrite <- app_assoc; (eexists; split; [reflexivity|]);
        rewrite native_calls_app, native_calls_criticals;
        cbn [native_calls omap list_omap app];
        repeat first [ apply Forall_nil_2
                     | apply Forall_cons; split;
                       [first [by apply (submission_ok priv) | exact I]|] ].
    + rewrite (run_in_device_sync_no_queue driver gocl_error_get_message
                 _ _ priv) by done.
      exists []. split; [by rewrite app_nil_r | by cbn].
Qed.

Lemma run_in_device_grows w self priv device l :
  valid_kernel w self priv ->
  kernel_configured priv ->
  exists t,
    trace (gocl_kernel_run_in_device driver gocl_error_get_message
             (Some self) device l w).2 = trace w ++ t
    /\ Forall (native_call_ok (kernel priv)) (native_calls t).
Proof.
  intros Hv Hc. destruct (device_cases w device) as [Hd|(d & dq & -> & Hd)].
  - rewrite (run_in_device_bad_device _ _ priv _ l (proj1 Hv) Hd).
    eexists. split; [reflexivity|]. by cbn.
  - destruct (gocl_event_list_to_array l w) as [a w1] eqn:Ha.
    destruct (gocl_event_list_to_array_frame _ _ _ _ Ha) as (msgs & Hw1).
    destruct dq as [q|].
    + rewrite (run_in_device_run driver gocl_error_get_message
                 _ _ _ _ _ _ _ _ Hv Hd Ha). cbn zeta. subst w1.
      destruct (decide _); cbn [snd trace set_trace];
        rewrite <- app_assoc; (eexists; split; [reflexivity|]);
        rewrite native_calls_app, native_calls_criticals;
        cbn [native_calls omap list_omap app];
        repeat first [ apply Forall_nil_2
                     | apply Forall_cons; split;
                       [first [by apply (submission_ok priv) | exact I]|] ].
    + rewrite (run_in_device_no_queue driver gocl_error_get_message
                 _ _ _ _ _ _ _ Hv Hd Ha). subst w1.
      cbn [snd trace set_trace]. rewrite <- app_assoc.
      eexists. split; [reflexivity|].
      rewrite native_calls_app, native_calls_criticals. by cbn.
Qed.

Lemma set_argument_buffer_run w self priv index buffer :
  objects w !! self = Some (GoclKernel priv) ->
  exists mem,
    let c := clSetKernelArg (kernel priv) index sizeof_cl_mem (ArgMem mem) in
    objects (gocl_kernel_set_argument_buffer driver gocl_error_get_message
               (Some self) index buffer w).2 = objects w
    /\ trace (gocl_kernel_set_argument_buffer driver gocl_error_get_message
                (Some self) index buffer w).2 = trace w ++ [Native c].
Proof.
  intros Hk.
  unfold gocl_kernel_set_argument_buffer, gocl_buffer_get_buffer, cl_call,
    gocl_error_check_opencl_internal, gocl_error_check_opencl.
  munfold. rewrite Hk. mcbn. eexists. cbn zeta.
  by destruct (decide _).
Qed.

Lemma bind_unit_snd {A} (c : M A) (w : World) :
  (c;; mret tt) w = (tt, (c w).2).
Proof. unfold mbind, M_bind, mret, M_ret. by destruct (c w). Qed.

Lemma calls_keep_same_store w w' self k n prog t :
  kernel_state_ok w self k n prog ->
  objects w' = objects w ->
  trace w' = trace w ++ t ->
  Forall (native_call_ok k) (native_calls t) ->
  calls_keep w w' self k n prog.
Proof.
  intros (priv & Hk & Hid) Ho Ht Hf. split; [|split].
  - exists priv. by rewrite Ho.
  - intros p o _. by rewrite Ho.
  - by exists t.
Qed.

Lemma calls_keep_kernel_store w self priv priv' :
  objects w !! self = Some (GoclKernel priv) ->
  kernel priv' = kernel priv ->
  name priv' = name priv ->
  program priv' = program priv ->
  kernel_configured priv' ->
  calls_keep w
    (set_objects (<[self := GoclKernel priv']> (objects w)) w)
    self (kernel priv) (name priv) (program priv).
Proof.
  intros Hk H1 H2 H3 Hc. split; [|split].
  - exists priv'. split; [apply lookup_insert_eq | done].
  - intros p o Hne Hp. cbn. by rewrite lookup_insert_ne.
  - exists []. split; [by rewrite app_nil_r | by cbn].
Qed.

Lemma kernel_op_keeps w self k n prog op :
  kernel_state_ok w self k n prog ->
  calls_keep w (kernel_op driver gocl_error_get_message (Some self) op w).2
    self k n prog.
Proof.
  intros Hs. pose proof Hs as (priv & Hk & <- & <- & <- & Hc).
  pose proof Hc as (Hdim & Hg & Hl).
  assert (Hv : valid_kernel w self priv) by done.
  destruct op as [index size buffer | index N buffer | index N buffer
                 | index buffer | device l | device l | dim
                 | s1 s2 s3 | s1 s2 s3]; cbn [kernel_op].
  - rewrite bind_unit_snd. cbn [snd].
    rewrite (set_argument_run _ _ _ _ _ _ Hk). cbn zeta. cbn [snd].
    eapply (calls_keep_same_store _ _ _ _ _ _ [Native _]);
      [done | reflexivity | reflexivity |].
    apply Forall_cons; split; [exact I | apply Forall_nil_2].
  - rewrite bind_unit_snd. cbn [snd]. unfold gocl_kernel_set_argument_int32.
    rewrite (set_argument_run _ _ _ _ _ _ Hk). cbn zeta. cbn [snd].
    eapply (calls_keep_same_store _ _ _ _ _ _ [Native _]);
      [done | reflexivity | reflexivity |].
    apply Forall_cons; split; [exact I | apply Forall_nil_2].
  - rewrite bind_unit_snd. cbn [snd]. unfold gocl_kernel_set_argument_float.
    rewrite (set_argument_run _ _ _ _ _ _ Hk). cbn zeta. cbn [snd].
    eapply (calls_keep_same_store _ _ _ _ _ _ [Native _]);
      [done | reflexivity | reflexivity |].
    apply Forall_cons; split; [exact I | apply Forall_nil_2].
  - rewrite bind_unit_snd. cbn [snd].
    destruct (set_argument_buffer_run w self priv index buffer Hk)
      as (mem & Ho & Ht).
    eapply calls_keep_same_store; [done | exact Ho | exact Ht |].
    apply Forall_cons; split; [exact I | apply Forall_nil_2].
  - rewrite bind_unit_snd. cbn [snd].
    destruct (run_in_device_sync_grows w self priv device l Hv Hc)
      as (t & Ht & Hf).
    eapply calls_keep_same_store; [done | | exact Ht | exact Hf].
    by apply (run_in_device_sync_frame _ _ priv).
  - rewrite bind_unit_snd. cbn [snd].
    destruct (run_in_device_grows w self priv device l Hv Hc)
      as (t & Ht & Hf).
    split; [|split].
    + exists priv. split; [|done].
      by apply (run_in_device_frame _ _ priv).
    + intros p o _ Hp. by apply (run_in_device_frame _ _ priv).
    + by exists t.
  - destruct (decide (1 <= dim <= 3)) as [Hin|Hout].
    + rewrite (set_work_dimension_accepts _ _ _ _ Hk Hin). cbn [snd].
      by apply calls_keep_kernel_store.
    + rewrite (set_work_dimension_rejects _ _ _ _ Hk Hout). cbn [snd].
      eapply (calls_keep_same_store _ _ _ _ _ _ [Critical _]);
        [done | reflexivity | reflexivity | apply Forall_nil_2].
  - rewrite (set_global_work_size_run _ _ _ _ _ _ Hv). cbn [snd].
    by apply calls_keep_kernel_store.
  - rewrite (set_local_work_size_run _ _ _ _ _ _ Hv). cbn [snd].
    by apply calls_keep_kernel_store.
Qed.

Lemma calls_keep_trans w1 w2 w3 self k n prog :
  calls_keep w1 w2 self k n prog ->
  calls_keep w2 w3 self k n prog ->
  calls_keep w1 w3 self k n prog.
Proof.
  intros (_ & Ho1 & t1 & Ht1 & Hf1) (Hs & Ho2 & t2 & Ht2 & Hf2).
  split; [done|]. split.
  - intros p o Hne Hp. by apply Ho2, Ho1.
  - exists (t1 ++ t2). split; [by rewrite Ht2, Ht1, app_assoc|].
    rewrite native_calls_app. by apply Forall_app.
Qed.

(** X12: whatever sequence of public calls a caller makes on a configured kernel,
    with whatever arguments, devices and dependency lists, and whatever the
    driver answers: the handle stays a kernel instance with the same native
    kernel, name and program; its work dimensionality stays 1, 2 or 3 and
    its vectors keep their three slots; no other instance that existed is
    changed or removed; and every submission made on the way is a
    submission of that native kernel with a dimensionality of 1, 2 or 3, no
    global offset, and size arguments that are absent or have a non-zero
    first slot.  No call creates or releases a native kernel. *)
Theorem kernel_ops_keep self k n prog ops w :
  kernel_state_ok w self k n prog ->
  let w' := (kernel_ops driver gocl_error_get_message (Some self) ops w).2 in
  kernel_state_ok w' self k n prog
  /\ (forall p o, p <> self -> objects w !! p = Some o ->
                  objects w' !! p = Some o)
  /\ exists t, trace w' = trace w ++ t
               /\ Forall (native_call_ok k) (native_calls t).
Proof.
  cbn zeta. revert w. induction ops as [|op ops IH]; intros w Hs.
  - split; [done|]. split; [done|].
    exists []. split; [by rewrite app_nil_r | by cbn].
  - cbn [kernel_ops]. unfold mbind, M_bind.
    pose proof (kernel_op_keeps w self k n prog op Hs) as Hstep.
    destruct (kernel_op _ _ _ op w) as [[] w1]. cbn [snd] in Hstep.
    apply (calls_keep_trans w w1); [done|].
    apply IH. by destruct Hstep.
Qed.

Lemma run_in_device_store w self priv device l :
  valid_kernel w self priv ->
  let r := gocl_kernel_run_in_device driver gocl_error_get_message
             (Some self) device l w in
  (r.1 = None /\ objects r.2 = objects w)
  \/ exists p tok,
       r.1 = Some p
       /\ objects w !! p = None
       /\ objects r.2 = <[p := GoclEvent tok]> (objects w).
Proof.
  intros Hv. cbn zeta.
  destruct (device_cases w device) as [Hd|(d & dq & -> & Hd)].
  - left. by rewrite (run_in_device_bad_device _ _ priv _ l (proj1 Hv) Hd).
  - destruct (gocl_event_list_to_array l w) as [a w1] eqn:Ha.
    destruct (gocl_event_list_to_array_frame _ _ _ _ Ha) as (msgs & Hw1).
    destruct dq as [q|].
    + right.
      rewrite (run_in_device_run driver gocl_error_get_message
                 _ _ _ _ _ _ _ _ Hv Hd Ha). cbn zeta.
      destruct (decide _); cbn [fst snd objects];
        eexists _, _; (split; [reflexivity|]);
        (split; [apply fresh_object_unused | reflexivity]).
    + left.
      rewrite (run_in_device_no_queue driver gocl_error_get_message
                 _ _ _ _ _ _ _ Hv Hd Ha). by subst w1.
Qed.

(** X13: a run reads the configuration and leaves it in place: whatever the
    device handle, the dependency list and the driver's answers, a
    synchronous run leaves the store exactly as it was, and an asynchronous
    run either returns [NULL] and leaves the store exactly as it was, or
    returns a token and changes the store by that one token only, placed at
    an address that was unused; so every instance that existed, the kernel
    included, is exactly as it was. *)
Theorem runs_leave_store w self priv device l :
  valid_kernel w self priv ->
  let r := gocl_kernel_run_in_device driver gocl_error_get_message
             (Some self) device l w in
  objects (gocl_kernel_run_in_device_sync driver gocl_error_get_message
             (Some self) device l w).2 = objects w
  /\ ((r.1 = None /\ objects r.2 = objects w)
      \/ exists p tok,
           r.1 = Some p
           /\ objects w !! p = None
           /\ objects r.2 = <[p := GoclEvent tok]> (objects w))
  /\ (forall p o, objects w !! p = Some o -> objects r.2 !! p = Some o).
Proof.
  intros Hv. cbn zeta. split; [|split].
  - by apply (run_in_device_sync_frame _ _ priv).
  - by apply (run_in_device_store _ _ priv).
  - intros p o Hp. by apply (run_in_device_frame _ _ priv).
Qed.

(** ** How the setters compose *)

(** X14: the three setters are independent of one another: on a valid kernel the
    two work-size setters commute, and a work dimension in [1,3] can be set
    before or after either of them, with the same resulting state. *)
Theorem setters_commute w self priv (g1 g2 g3 l1 l2 l3 dim : Z) :
  valid_kernel w self priv ->
  1 <= dim <= 3 ->
  let G := gocl_kernel_set_global_work_size (Some self) g1 g2 g3 in
  let L := gocl_kernel_set_local_work_size (Some self) l1 l2 l3 in
  let D := gocl_kernel_set_work_dimension (Some self) dim in
  (G;; L) w = (L;; G) w
  /\ (G;; D) w = (D;; G) w
  /\ (L;; D) w = (D;; L) w.
Proof.
  intros Hv Hdim. pose proof Hv as (Hk & Hg & Hl). cbn zeta.
  assert (HvG : forall v,
             valid_kernel
               (set_objects (<[self := GoclKernel (set_global v priv)]>
                               (objects w)) w)
               self (set_global v priv)
             <-> length v = 3%nat).
  { intros v. split; [by intros (_ & ? & _)|].
    intros Hv3. split; [apply lookup_insert_eq | by split]. }
  assert (HvL : forall v,
             valid_kernel
               (set_objects (<[self := GoclKernel (set_local v priv)]>
                               (objects w)) w)
               self (set_local v priv)
             <-> length v = 3%nat).
  { intros v. split; [by intros (_ & _ & ?)|].
    intros Hv3. split; [apply lookup_insert_eq | by split]. }
  assert (HvD : valid_kernel
                  (set_objects (<[self := GoclKernel (set_work_dim dim priv)]>
                                  (objects w)) w)
                  self (set_work_dim dim priv)).
  { split; [apply lookup_insert_eq | by split]. }
  unfold mbind, M_bind.
  rewrite (set_global_work_size_run _ _ _ g1 g2 g3 Hv).
  rewrite (set_local_work_size_run _ _ _ l1 l2 l3 Hv).
  rewrite (set_work_dimension_accepts _ _ _ _ Hk Hdim).
  rewrite (set_local_work_size_run _ _ _ l1 l2 l3 (proj2 (HvG [g1; g2; g3]) eq_refl)).
  rewrite (set_global_work_size_run _ _ _ g1 g2 g3 (proj2 (HvL [l1; l2; l3]) eq_refl)).
  rewrite (set_global_work_size_run _ _ _ g1 g2 g3 HvD).
  rewrite (set_local_work_size_run _ _ _ l1 l2 l3 HvD).
  erewrite !set_work_dimension_accepts by (try done; apply lookup_insert_eq).
  unfold set_objects. cbn [objects trace gocl_error].
  rewrite !insert_insert_eq. by repeat split.
Qed.

(** X15: the stored work dimension is the last one that was accepted: a
    second accepted value replaces the first, and a rejected value (0 or
    above 3) after an accepted one is reported and leaves the accepted one
    stored; the other fields of the kernel stay as they were. *)
Theorem set_work_dimension_last_accepted w self priv (d1 d2 : Z) :
  valid_kernel w self priv ->
  1 <= d1 <= 3 ->
  let w2 := (gocl_kernel_set_work_dimension (Some self) d2
               (gocl_kernel_set_work_dimension (Some self) d1 w).2).2 in
  objects w2
  = <[self := GoclKernel
                {| kernel := kernel priv; name := name priv;
                   program := program priv;
                   global_work_size := global_work_size priv;
                   local_work_size := local_work_size priv;
                   work_dim := if decide (1 <= d2 <= 3) then d2 else d1 |}]>
      (objects w)
  /\ trace w2
     = trace w ++ (if decide (1 <= d2 <= 3) then []
                   else [Critical "work_dim > 0 && work_dim <= 3"]).
Proof.
  intros (Hk & _) H1. cbn zeta.
  rewrite (set_work_dimension_accepts _ _ _ _ Hk H1). cbn [snd].
  destruct (decide (1 <= d2 <= 3)) as [H2|H2].
  - erewrite set_work_dimension_accepts by (try done; apply lookup_insert_eq).
    cbn. by rewrite insert_insert_eq, app_nil_r.
  - erewrite set_work_dimension_rejects by (try done; apply lookup_insert_eq).
    by cbn.
Qed.

(** ** Properties *)

(** X16: what is written to a construct property is what is read back from it,
    and writing one of the two properties leaves the other as it was; a
    property id the class does not have is reported by both accessors, and
    then nothing is stored and nothing is read. *)
Theorem property_round_trip w obj priv (n : string) (prog : option ptr)
    (prop_id : Z) (value : GValue) :
  valid_kernel w obj priv ->
  let wn := (set_property obj PROP_NAME (GValueString n) w).2 in
  let wp := (set_property obj PROP_PROGRAM (GValueObject prog) w).2 in
  (get_property obj PROP_NAME wn).1 = Some (GValueString n)
  /\ (get_property obj PROP_PROGRAM wn).1
     = Some (GValueObject (program priv))
  /\ (get_property obj PROP_PROGRAM wp).1 = Some (GValueObject prog)
  /\ (get_property obj PROP_NAME wp).1 = Some (GValueString (name priv))
  /\ (prop_id <> PROP_PROGRAM -> prop_id <> PROP_NAME ->
      set_property obj prop_id value w
      = (tt, set_trace (trace w ++ [Warning "invalid property id"]) w)
      /\ get_property obj prop_id w
        = (None, set_trace (trace w ++ [Warning "invalid property id"]) w)).
Proof.
  intros (Hk & _). cbn zeta. unfold set_property, get_property.
  destruct (decide (PROP_PROGRAM = PROP_PROGRAM)) as [_|?]; [|done].
  destruct (decide (PROP_NAME = PROP_PROGRAM)) as [?|_]; [done|].
  destruct (decide (PROP_NAME = PROP_NAME)) as [_|?]; [|done].
  munfold. rewrite !Hk. mcbn. rewrite !lookup_insert_eq. mcbn.
  repeat split; try done.
  - destruct (decide (prop_id = PROP_PROGRAM)); [done|].
    by destruct (decide (prop_id = PROP_NAME)).
  - destruct (decide (prop_id = PROP_PROGRAM)); [done|].
    by destruct (decide (prop_id = PROP_NAME)).
Qed.

(** ** Construction and release *)






(** ** The instance initialiser, byte by byte *)

Lemma gsize_of_to_bytes_aux (n : nat) (v : Z) :
  gsize_of_bytes (gsize_to_bytes_aux n v)
  = Z.land v (Z.ones (8 * Z.of_nat n)).
Proof.
  revert v. induction n as [|n IH]; intros v.
  - cbn. by rewrite Z.land_0_r.
  - cbn [gsize_to_bytes_aux gsize_of_bytes]. rewrite IH.
    apply Z.bits_inj'. intros i Hi.
    rewrite Z.lor_spec, !Z.land_spec. change 255 with (Z.ones 8).
    rewrite !Z.testbit_ones_nonneg by lia.
    destruct (Z.ltb_spec i 8) as [Hlt|Hge].
    + rewrite Z.shiftl_spec_low by lia.
      destruct (Z.ltb_spec i (8 * Z.of_nat (S n))); [|lia].
      by rewrite orb_false_r.
    + rewrite Z.shiftl_spec by lia. rewrite Z.land_spec.
      rewrite Z.shiftr_spec by lia.
      rewrite Z.testbit_ones_nonneg by lia.
      replace (i - 8 + 8) with i by lia.
      rewrite andb_false_r, orb_false_l.
      destruct (Z.ltb_spec (i - 8) (8 * Z.of_nat n));
        destruct (Z.ltb_spec i (8 * Z.of_nat (S n))); try lia; done.
Qed.

Lemma gsize_bytes_round_trip (v : Z) :
  is_gsize v -> gsize_of_bytes (gsize_to_bytes v) = v.
Proof.
  intros [H0 Hmax]. unfold gsize_to_bytes. rewrite gsize_of_to_bytes_aux.
  rewrite Z.land_ones by lia. apply Z.mod_small.
  unfold G_MAXSIZE, sizeof_gsize in *. cbn. lia.
Qed.

Lemma gsize_clear_three_bytes (v : Z) :
  is_gsize v ->
  gsize_of_bytes
    (0 :: 0 :: 0
       :: gsize_to_bytes_aux 5 (Z.shiftr (Z.shiftr (Z.shiftr v 8) 8) 8))
  = 2 ^ 24 * (v / 2 ^ 24).
Proof.
  intros [H0 Hmax]. cbn [gsize_of_bytes]. rewrite gsize_of_to_bytes_aux.
  rewrite !Z.lor_0_l, !Z.shiftr_shiftr by lia.
  rewrite Z.land_ones by lia. rewrite !Z.shiftl_shiftl by lia.
  rewrite Z.shiftr_div_pow2, Z.shiftl_mul_pow2 by lia.
  change (8 + (8 + 8)) with 24. change (8 * Z.of_nat 5) with 40.
  rewrite Z.mod_small; [lia|].
  unfold G_MAXSIZE in Hmax. split; [apply Z.div_pos; lia|].
  apply Z.div_lt_upper_bound; lia.
Qed.

Lemma memset_WorkSize_three_bytes (s0 s1 s2 : Z) :
  is_gsize s0 -> is_gsize s1 -> is_gsize s2 ->
  memset_WorkSize [s0; s1; s2] 0 3 = [2 ^ 24 * (s0 / 2 ^ 24); s1; s2].
Proof.
  intros H0 H1 H2.
  change (memset_WorkSize [s0; s1; s2] 0 3)
    with [gsize_of_bytes
            (0 :: 0 :: 0
               :: gsize_to_bytes_aux 5
                    (Z.shiftr (Z.shiftr (Z.shiftr s0 8) 8) 8));
          gsize_of_bytes (gsize_to_bytes s1);
          gsize_of_bytes (gsize_to_bytes s2)].
  by rewrite gsize_clear_three_bytes, !gsize_bytes_round_trip.
Qed.

(** X21: the instance initialiser sets the work dimension to 1 and clears the
    first three bytes of each work-size vector, not its three slots: on
    instance memory holding any [gsize] values, slots 1 and 2 of both
    vectors keep their values and slot 0 loses its low 24 bits only (on a
    little-endian machine with 8-byte [gsize]).  The vectors come out zero
    exactly because fresh instance memory is zero already. *)
Theorem kernel_init_clears_three_bytes w self priv (g0 g1 g2 l0 l1 l2 : Z) :
  objects w !! self = Some (GoclKernel priv) ->
  global_work_size priv = [g0; g1; g2] ->
  local_work_size priv = [l0; l1; l2] ->
  Forall is_gsize [g0; g1; g2; l0; l1; l2] ->
  gocl_kernel_init (Some self) w
  = (tt,
     set_objects
       (<[self := GoclKernel
                    {| kernel := kernel priv; name := name priv;
                       program := program priv;
                       global_work_size := [2 ^ 24 * (g0 / 2 ^ 24); g1; g2];
                       local_work_size := [2 ^ 24 * (l0 / 2 ^ 24); l1; l2];
                       work_dim := 1 |}]> (objects w)) w).
Proof.
  intros Hk Hg Hl Hr.
  apply Forall_cons in Hr as [Hg0 Hr]. apply Forall_cons in Hr as [Hg1 Hr].
  apply Forall_cons in Hr as [Hg2 Hr]. apply Forall_cons in Hr as [Hl0 Hr].
  apply Forall_cons in Hr as [Hl1 Hr]. apply Forall_cons in Hr as [Hl2 _].
  unfold gocl_kernel_init. munfold. rewrite Hk. mcbn.
  repeat (rewrite ?lookup_insert_eq, ?insert_insert_eq; mcbn).
  unfold set_local, set_global, set_work_dim.
  cbn [kernel name program global_work_size local_work_size work_dim].
  rewrite Hg, Hl. by rewrite !memset_WorkSize_three_bytes.
Qed.

End KernelUse.

(** * The further properties on the mock process *)

Ltac mock_lookup := vm_compute; reflexivity.

Lemma invalid_kernel_rejected_witness :
  not_a_kernel mock_world (Some 2%positive)
  /\ not_a_kernel mock_world None
  /\ gocl_kernel_run_in_device_sync driver_ok mock_message
       (Some 2%positive) (Some 2%positive) [] mock_world
     = (false, with_critical "GOCL_IS_KERNEL (self)" mock_world)
  /\ gocl_kernel_set_global_work_size None 8 8 1 mock_world
     = (tt, with_critical "GOCL_IS_KERNEL (self)" mock_world).
Proof.
  assert (H : not_a_kernel mock_world (Some 2%positive))
    by (vm_compute; exact I).
  assert (H0 : not_a_kernel mock_world None) by exact I.
  split; [exact H|]. split; [exact H0|].
  pose proof (invalid_kernel_rejected driver_ok mock_message mock_world
                (Some 2%positive) H) as Hr.
  pose proof (invalid_kernel_rejected driver_ok mock_message mock_world
                None H0) as Hr0.
  cbn zeta in Hr, Hr0.
  destruct Hr as (_ & _ & _ & _ & _ & Hsync & _).
  destruct Hr0 as (_ & _ & _ & _ & _ & _ & _ & _ & Hglobal & _).
  split; [apply Hsync | apply Hglobal].
Defined.

Lemma invalid_device_rejected_witness :
  valid_kernel mock_world 1 mock_kernel
  /\ invalid_device mock_world (Some 3%positive)
  /\ gocl_kernel_run_in_device driver_ok mock_message
       (Some 1%positive) (Some 3%positive) [] mock_world
     = (None, with_critical "GOCL_IS_DEVICE (device)" mock_world).
Proof.
  split; [mock_kernel_valid|]. split; [vm_compute; exact I|].
  apply (invalid_device_rejected driver_ok mock_message mock_world 1
           mock_kernel (Some 3%positive) []);
    [mock_kernel_valid | vm_compute; exact I].
Defined.

Lemma set_argument_outcome_witness :
  valid_kernel mock_world 1 mock_kernel
  /\ (gocl_kernel_set_argument driver_set_arg_fails mock_message
        (Some 1%positive) 0 16 4096 mock_world).1 = false
  /\ gocl_error (gocl_kernel_set_argument driver_set_arg_fails mock_message
                   (Some 1%positive) 0 16 4096 mock_world).2
     = Some {| code := -49; message := mock_message (-49) |}.
Proof.
  split; [mock_kernel_valid|].
  pose proof (set_argument_outcome driver_set_arg_fails mock_message
                mock_world 1 mock_kernel 0 16 4096) as Hr.
  cbn zeta in Hr.
  destruct Hr as (Hflag & _ & _ & _ & Herr); [mock_kernel_valid|].
  split.
  - apply not_true_is_false. intros E. apply Hflag in E.
    vm_compute in E. discriminate E.
  - apply Herr. vm_compute. discriminate.
Defined.

Lemma set_argument_float_size_witness :
  valid_kernel mock_world 1 mock_kernel
  /\ exists size,
       trace (gocl_kernel_set_argument_float driver_ok mock_message
                (Some 1%positive) 2 256 4096 mock_world).2
       = [Native (clSetKernelArg 10 2 size (ArgHost 4096))]
       /\ size = 1024.
Proof.
  split; [mock_kernel_valid|].
  destruct (set_argument_float_size driver_ok mock_message mock_world 1
              mock_kernel 2 256 4096) as (size & Ht & _ & Hsmall);
    [mock_kernel_valid|].
  exists size. split; [exact Ht|].
  apply Hsmall; vm_compute; discriminate.
Defined.

Lemma set_argument_buffer_outcome_witness :
  valid_kernel mock_world_full 1 mock_kernel
  /\ objects mock_world_full !! 6%positive = Some (GoclBuffer 66)
  /\ trace (gocl_kernel_set_argument_buffer driver_ok mock_message
              (Some 1%positive) 0 (Some 6%positive) mock_world_full).2
     = [Native (clSetKernelArg 10 0 sizeof_cl_mem (ArgMem 66))].
Proof.
  split; [mock_kernel_valid|]. split; [mock_lookup|].
  apply (set_argument_buffer_outcome driver_ok mock_message mock_world_full
           1 mock_kernel 0 6 66); [mock_kernel_valid | mock_lookup].
Defined.

Lemma run_without_queue_witness :
  valid_kernel mock_world 1 mock_kernel
  /\ valid_device mock_world 4 None
  /\ gocl_kernel_run_in_device_sync driver_ok mock_message
       (Some 1%positive) (Some 4%positive) [] mock_world
     = (false, mock_world).
Proof.
  split; [mock_kernel_valid|]. split; [mock_device_valid|].
  apply (run_without_queue driver_ok mock_message mock_world 1 mock_kernel
           4 []); [mock_kernel_valid | mock_device_valid].
Defined.

Lemma run_in_device_sync_submission_failure_witness :
  valid_kernel mock_world 1 mock_kernel
  /\ valid_device mock_world 2 (Some 3%positive)
  /\ gocl_event_list_to_array [] mock_world = ((None, 0), mock_world)
  /\ (gocl_kernel_run_in_device_sync driver_submit_fails mock_message
        (Some 1%positive) (Some 2%positive) [] mock_world).1 = false
  /\ native_calls
       (trace (gocl_kernel_run_in_device_sync driver_submit_fails
                 mock_message (Some 1%positive) (Some 2%positive) []
                 mock_world).2)
     = [submission mock_kernel (native_queue mock_world 3) 0 None].
Proof.
  split; [mock_kernel_valid|]. split; [mock_device_valid|].
  split; [reflexivity|].
  pose proof (run_in_device_sync_submission_failure driver_submit_fails
                mock_message mock_world 1 mock_kernel 2 3 [] (None, 0)
                mock_world) as Hr.
  cbn zeta in Hr.
  destruct Hr as (Hflag & Hcalls & _);
    [mock_kernel_valid | mock_device_valid | reflexivity
    | vm_compute; discriminate |].
  split; [exact Hflag | exact Hcalls].
Defined.

Lemma run_in_device_sync_waits_then_releases_witness :
  valid_kernel mock_world 1 mock_kernel
  /\ valid_device mock_world 2 (Some 3%positive)
  /\ gocl_event_list_to_array [] mock_world = ((None, 0), mock_world)
  /\ trace (gocl_kernel_run_in_device_sync driver_ok mock_message
              (Some 1%positive) (Some 2%positive) [] mock_world).2
     = [Native (submission mock_kernel (native_queue mock_world 3) 0 None);
        Native (clWaitForEvents 1 [77]);
        Native (clReleaseEvent 77)].
Proof.
  split; [mock_kernel_valid|]. split; [mock_device_valid|].
  split; [reflexivity|].
  pose proof (run_in_device_sync_waits_then_releases driver_ok
                mock_message mock_world 1 mock_kernel 2 3 [] (None, 0)
                mock_world) as Hr.
  cbn zeta in Hr.
  destruct Hr as (_ & Htrace & _);
    [mock_kernel_valid | mock_device_valid | reflexivity | reflexivity |].
  exact Htrace.
Defined.

Lemma run_in_device_never_waits_witness :
  valid_kernel mock_world 1 mock_kernel
  /\ valid_device mock_world 2 (Some 3%positive)
  /\ native_calls
       (trace (gocl_kernel_run_in_device driver_ok mock_message
                 (Some 1%positive) (Some 2%positive) [] mock_world).2)
     = [submission mock_kernel (native_queue mock_world 3) 0 None].
Proof.
  split; [mock_kernel_valid|]. split; [mock_device_valid|].
  apply (run_in_device_never_waits driver_ok mock_message mock_world 1
           mock_kernel 2 (Some 3%positive) []);
    [mock_kernel_valid | mock_device_valid].
Defined.

Lemma run_local_size_absent_when_zero_witness :
  valid_kernel mock_world 1 mock_kernel
  /\ valid_device mock_world 2 (Some 3%positive)
  /\ exists first,
       local_work_size mock_kernel !! 0%nat = Some first
       /\ enqueue_calls
            (trace (gocl_kernel_run_in_device_sync driver_ok mock_message
                      (Some 1%positive) (Some 2%positive) [] mock_world).2)
          = [clEnqueueNDRangeKernel 99 10 2 None (Some [32; 32; 0])
               (if decide (first = 0) then None else Some [2; 2; 0])
               0 None].
Proof.
  split; [mock_kernel_valid|]. split; [mock_device_valid|].
  destruct (run_local_size_absent_when_zero driver_ok mock_message
              mock_world 1 mock_kernel 2 3 []) as (first & Hf & Hs & _);
    [mock_kernel_valid | mock_device_valid |].
  exists first. split; [exact Hf | exact Hs].
Defined.

Lemma run_in_device_token_contents_witness :
  valid_kernel mock_world 1 mock_kernel
  /\ valid_device mock_world 2 (Some 3%positive)
  /\ gocl_event_list_to_array [] mock_world = ((None, 0), mock_world)
  /\ exists p tok,
       (gocl_kernel_run_in_device driver_ok mock_message
          (Some 1%positive) (Some 2%positive) [] mock_world).1 = Some p
       /\ objects (gocl_kernel_run_in_device driver_ok mock_message
                     (Some 1%positive) (Some 2%positive) [] mock_world).2
            !! p = Some (GoclEvent tok)
       /\ ev_queue tok = Some 3%positive
       /\ ev_event tok = 77.
Proof.
  split; [mock_kernel_valid|]. split; [mock_device_valid|].
  split; [reflexivity|].
  pose proof (run_in_device_token_contents driver_ok mock_message
                mock_world 1 mock_kernel 2 3 [] (None, 0) mock_world) as Hr.
  cbn zeta in Hr.
  destruct Hr as (p & tok & pre & Hp & Htok & Hq & _ & _ & Hev);
    [mock_kernel_valid | mock_device_valid | reflexivity |].
  exists p, tok. split; [exact Hp|]. split; [exact Htok|].
  split; [exact Hq|]. exact (proj1 Hev).
Defined.

Lemma kernel_ops_keep_witness :
  kernel_state_ok mock_world 1 10 "my_kernel" None
  /\ kernel_state_ok
       (kernel_ops driver_submit_fails mock_message (Some 1%positive)
          [OpSetWorkDimension 7; OpSetGlobalWorkSize 0 0 0;
           OpSetArgumentInt32 1 1 4096;
           OpRunInDevice (Some 2%positive) [];
           OpSetWorkDimension 3; OpRunInDeviceSync (Some 4%positive) []]
          mock_world).2
       1 10 "my_kernel" None.
Proof.
  assert (H : kernel_state_ok mock_world 1 10 "my_kernel" None).
  { exists mock_kernel. split; [mock_lookup|].
    repeat split; try reflexivity; cbn; lia. }
  split; [exact H|].
  apply (kernel_ops_keep driver_submit_fails mock_message 1 10 "my_kernel"
           None _ mock_world H).
Defined.

Lemma runs_leave_store_witness :
  valid_kernel mock_world 1 mock_kernel
  /\ objects (gocl_kernel_run_in_device_sync driver_wait_fails mock_message
                (Some 1%positive) (Some 2%positive) [] mock_world).2
     = objects mock_world
  /\ forall p o,
       objects mock_world !! p = Some o ->
       objects (gocl_kernel_run_in_device driver_wait_fails mock_message
                  (Some 1%positive) (Some 2%positive) [] mock_world).2 !! p
       = Some o.
Proof.
  split; [mock_kernel_valid|].
  pose proof (runs_leave_store driver_wait_fails mock_message mock_world 1
                mock_kernel (Some 2%positive) []) as Hr.
  cbn zeta in Hr. destruct Hr as (Hs & _ & Ha); [mock_kernel_valid|].
  split; [exact Hs | exact Ha].
Defined.

Lemma setters_commute_witness :
  valid_kernel mock_world 1 mock_kernel
  /\ 1 <= 3 <= 3
  /\ (gocl_kernel_set_global_work_size (Some 1%positive) 64 64 1;;
      gocl_kernel_set_local_work_size (Some 1%positive) 8 8 1) mock_world
     = (gocl_kernel_set_local_work_size (Some 1%positive) 8 8 1;;
        gocl_kernel_set_global_work_size (Some 1%positive) 64 64 1)
         mock_world.
Proof.
  split; [mock_kernel_valid|]. split; [lia|].
  apply (setters_commute mock_world 1 mock_kernel 64 64 1 8 8 1 3);
    [mock_kernel_valid | lia].
Defined.

Lemma set_work_dimension_last_accepted_witness :
  valid_kernel mock_world 1 mock_kernel
  /\ 1 <= 3 <= 3
  /\ objects
       (gocl_kernel_set_work_dimension (Some 1%positive) 4
          (gocl_kernel_set_work_dimension (Some 1%positive) 3
             mock_world).2).2
     = <[1%positive := GoclKernel
                         {| kernel := 10; name := "my_kernel";
                            program := None;
                            global_work_size := [32; 32; 0];
                            local_work_size := [2; 2; 0];
                            work_dim := 3 |}]>
         (objects mock_world)
  /\ objects
       (gocl_kernel_set_work_dimension (Some 1%positive) 1
          (gocl_kernel_set_work_dimension (Some 1%positive) 3
             mock_world).2).2
     = <[1%positive := GoclKernel
                         {| kernel := 10; name := "my_kernel";
                            program := None;
                            global_work_size := [32; 32; 0];
                            local_work_size := [2; 2; 0];
                            work_dim := 1 |}]>
         (objects mock_world).
Proof.
  split; [mock_kernel_valid|]. split; [lia|]. split.
  - apply (set_work_dimension_last_accepted mock_world 1 mock_kernel 3 4);
      [mock_kernel_valid | lia].
  - apply (set_work_dimension_last_accepted mock_world 1 mock_kernel 3 1);
      [mock_kernel_valid | lia].
Defined.

Lemma property_round_trip_witness :
  valid_kernel mock_world 1 mock_kernel
  /\ (get_property 1 PROP_NAME
        (set_property 1 PROP_NAME (GValueString "other") mock_world).2).1
     = Some (GValueString "other").
Proof.
  split; [mock_kernel_valid|].
  apply (property_round_trip mock_world 1 mock_kernel "other" None 0
           (GValueString "")); mock_kernel_valid.
Defined.





Lemma kernel_init_clears_three_bytes_witness :
  objects mock_world !! 1%positive = Some (GoclKernel mock_kernel)
  /\ Forall is_gsize [32; 32; 0; 2; 2; 0]
  /\ gocl_kernel_init (Some 1%positive) mock_world
     = (tt,
        set_objects
          (<[1%positive := GoclKernel
                             {| kernel := 10; name := "my_kernel";
                                program := None;
                                global_work_size := [0; 32; 0];
                                local_work_size := [0; 2; 0];
                                work_dim := 1 |}]> (objects mock_world))
          mock_world).
Proof.
  assert (Hr : Forall is_gsize [32; 32; 0; 2; 2; 0]).
  { repeat (apply Forall_cons; split; [vm_compute; split; discriminate|]).
    apply Forall_nil_2. }
  split; [mock_lookup|]. split; [exact Hr|].
  apply (kernel_init_clears_three_bytes mock_world 1 mock_kernel
           32 32 0 2 2 0); [mock_lookup | reflexivity | reflexivity | exact Hr].
Defined.
